(** * BharatViz Python client: request shaping, transport and decoding

    A shallow embedding of [server/examples/bharatviz.py].  Python
    dictionaries are finite maps, the module's effects (HTTP posts, files
    written, lines printed, figures shown) are threaded through an explicit
    world, and Python exceptions are an error result. *)

From Stdlib Require Import QArith Strings.Byte Strings.Ascii.
From stdpp Require Import gmap strings list pretty.

Set Warnings "-register-all".
Close Scope Q_scope.

(** ** Python values *)

(** The values that travel through the client: what [json.loads] returns and
    what [json.dumps] accepts.  A number is never inspected by the client. *)
Inductive pyval : Type :=
| PNone
| PBool (b : bool)
| PNum (q : Q)
| PStr (s : string)
| PList (l : list pyval)
| PDict (d : gmap string pyval).

(** One row-oriented record, a Python [dict] with string keys. *)
Abbreviation record := (gmap string pyval).

Abbreviation bytes := (list byte).

(** Python exceptions.  [BharatVizError] is the module's own class (source
    lines 55-58); the others are the builtins the client can let through. *)
Inductive exn : Type :=
| BharatVizError (msg : string)
| KeyError (key : string)
| TypeError
| AttributeError
| ValueError
| OSError.

Inductive Result (A : Type) : Type :=
| Ok (a : A)
| Raise (e : exn).
Arguments Ok {A} a.
Arguments Raise {A} e.

#[global] Instance Result_ret : MRet Result := fun A a => Ok a.
#[global] Instance Result_bind : MBind Result := fun A B k r =>
  match r with
  | Ok a => k a
  | Raise e => Raise e
  end.

(** Truth value of a Python object, as [if not x] tests it. *)
Definition py_truthy (v : pyval) : bool :=
  match v with
  | PNone => false
  | PBool b => b
  | PNum q => negb (Qeq_bool q 0%Q)
  | PStr s => negb (String.eqb s "")
  | PList l => negb (bool_decide (length l = 0))
  | PDict d => negb (bool_decide (size d = 0))
  end.

(** [v == s] for a string literal [s]: only the same string is equal. *)
Definition py_eq_str (v : pyval) (s : string) : bool :=
  match v with
  | PStr t => String.eqb t s
  | _ => false
  end.

(** [v.get(key, dflt)]: only a dict has the method. *)
Definition py_get (v : pyval) (key : string) (dflt : pyval) : Result pyval :=
  match v with
  | PDict d => Ok (default dflt (d !! key))
  | _ => Raise AttributeError
  end.

(** [v[key]] with a string key: a dict looks it up, a list or a string
    refuses a string index, the other values are not subscriptable. *)
Definition py_getitem (v : pyval) (key : string) : Result pyval :=
  match v with
  | PDict d =>
      match d !! key with
      | Some x => Ok x
      | None => Raise (KeyError key)
      end
  | _ => Raise TypeError
  end.

(** The elements [for e in v] visits.  A dict yields its keys and a string
    its characters; their order is the map's, which no caller observes
    because a string element fails at the first subscript. *)
Definition py_iter (v : pyval) : Result (list pyval) :=
  match v with
  | PList l => Ok l
  | PDict d => Ok (PStr <$> (map_to_list d).*1)
  | PStr s => Ok ((fun c => PStr (String c "")) <$> String.list_ascii_of_string s)
  | _ => Raise TypeError
  end.

(** ** Strings *)

(** [sep.join(l)]. *)
Definition str_join (sep : string) (l : list string) : string :=
  String.concat sep l.

(** [s.rstrip(c)] for a one-character set. *)
Fixpoint rstrip (c : ascii) (s : string) : string :=
  match s with
  | EmptyString => EmptyString
  | String a s' =>
      match rstrip c s' with
      | EmptyString => if Ascii.eqb a c then EmptyString else String a EmptyString
      | r => String a r
      end
  end.

(** [sub in s]. *)
Definition contains (s sub : string) : Prop :=
  exists pre post, s = pre +:+ sub +:+ post.

Definition hex_digit (n : N) : ascii :=
  match n with
  | 0 => "0" | 1 => "1" | 2 => "2" | 3 => "3" | 4 => "4" | 5 => "5"
  | 6 => "6" | 7 => "7" | 8 => "8" | 9 => "9" | 10 => "a" | 11 => "b"
  | 12 => "c" | 13 => "d" | 14 => "e" | _ => "f"
  end%N%char.

(** One character of [repr(s)] with [quote] as the delimiter.  A byte above
    127 belongs to a printable UTF-8 sequence and is kept. *)
Definition repr_char (quote a : ascii) : string :=
  let n := N_of_ascii a in
  if Ascii.eqb a quote || Ascii.eqb a "\"%char then String "\"%char (String a "")
  else if (n =? 9)%N then "\t"
  else if (n =? 10)%N then "\n"
  else if (n =? 13)%N then "\r"
  else if (n <? 32)%N || (n =? 127)%N then
    String "\"%char (String "x"%char
      (String (hex_digit (n / 16)) (String (hex_digit (n mod 16)) "")))
  else String a "".

Definition has_char (c : ascii) (s : string) : bool :=
  existsb (Ascii.eqb c) (String.list_ascii_of_string s).

(** [repr(s)] of a [str]: single quotes unless the text has a single quote
    and no double quote. *)
Definition py_repr_str (s : string) : string :=
  let quote : ascii :=
    if has_char "'"%char s && negb (has_char "034"%char s)
    then "034"%char else "'"%char in
  String quote
    (String.concat "" (repr_char quote <$> String.list_ascii_of_string s)
     +:+ String quote "").

(** ** Column-oriented input: the part of pandas the client uses *)

(** A column label.  A frame built from nested lists has integer labels. *)
Inductive label : Type :=
| LStr (s : string)
| LInt (z : Z).

#[global] Instance label_eq_dec : EqDecision label.
Proof. solve_decision. Defined.

(** [repr] of a label, as [str(list(df.columns))] prints it. *)
Definition py_repr_label (c : label) : string :=
  match c with
  | LStr s => py_repr_str s
  | LInt z => pretty z
  end.

(** [str(l)] of a list of labels. *)
Definition py_str_labels (l : list label) : string :=
  "[" +:+ str_join ", " (py_repr_label <$> l) +:+ "]".

(** A frame: its column labels and its rows, every row holding one cell per
    column.  [L] is the type of the labels. *)
Record DataFrame (L : Type) : Type := mkFrame {
  columns : list L;
  rows : list (list pyval)
}.
Arguments mkFrame {L} columns rows.
Arguments columns {L} d.
Arguments rows {L} d.

Definition wf_frame {L} (df : DataFrame L) : Prop :=
  Forall (fun r => length r = length (columns df)) (rows df).

(** [name in df.columns]. *)
Definition col_in (name : string) (df : DataFrame label) : bool :=
  bool_decide (LStr name ∈ columns df).

(** [df.columns = new]: pandas refuses a list of another length. *)
Definition set_columns (df : DataFrame label) (new : list label)
  : Result (DataFrame label) :=
  if bool_decide (length new = length (columns df))
  then Ok (mkFrame new (rows df))
  else Raise ValueError.

(** The positions, in increasing order, of the columns labelled [name]. *)
Fixpoint positions_from (i : nat) (name : string) (cols : list label) : list nat :=
  match cols with
  | [] => []
  | c :: cols' =>
      if bool_decide (c = LStr name)
      then i :: positions_from (S i) name cols'
      else positions_from (S i) name cols'
  end.

Definition positions (name : string) (cols : list label) : list nat :=
  positions_from 0 name cols.

(** The indexer of [df[keys]]: for each key in turn, every column carrying
    that label; a key that labels no column is a [KeyError]. *)
Fixpoint get_indexer (keys : list string) (cols : list label)
  : Result (list (string * nat)) :=
  match keys with
  | [] => Ok []
  | k :: keys' =>
      match positions k cols with
      | [] => Raise (KeyError k)
      | ps => rest ← get_indexer keys' cols; Ok (((fun p => (k, p)) <$> ps) ++ rest)
      end
  end.

(** [row.take(ps)]. *)
Definition take_cells (ps : list nat) (row : list pyval) : list pyval :=
  omap (fun p => row !! p) ps.

(** [df[keys]] for a list of labels. *)
Definition getitem_list (keys : list string) (df : DataFrame label)
  : Result (DataFrame string) :=
  ix ← get_indexer keys (columns df);
  Ok (mkFrame (ix.*1) (take_cells (ix.*2) <$> rows df)).

(** [dict(zip(cols, row))]: a later duplicate of a key replaces the value. *)
Definition dict_zip (cols : list string) (row : list pyval) : record :=
  list_to_map (reverse (zip cols row)).

(** [df.to_dict("records")]. *)
Definition to_dict_records (df : DataFrame string) : list record :=
  dict_zip (columns df) <$> rows df.

(** What [generate_map] accepts as [data]. *)
Inductive table : Type :=
| Rows (l : list record)
| Frame (df : DataFrame label).

(** ** Request builder *)

Definition COLOR_SCALES : list string :=
  [ "spectral"; "rdylbu"; "rdylgn"; "brbg"; "piyg"; "puor"; "blues";
    "greens"; "reds"; "oranges"; "purples"; "pinks"; "viridis"; "plasma";
    "inferno"; "magma" ].

Definition valid_map_types : list string := [ "LGD"; "NFHS5"; "NFHS4" ].

(** Source lines 171-184.  [df.copy()] only protects the caller's frame,
    which a functional update leaves alone anyway. *)
Definition normalize_states (data : table) : Result (list record) :=
  match data with
  | Frame df =>
      df' ← (if negb (col_in "state" df) || negb (col_in "value" df) then
               let required_cols := ["state"; "value"] in
               if bool_decide (2 ≤ length (columns df)) then
                 set_columns df ((LStr <$> required_cols) ++ drop 2 (columns df))
               else
                 Raise (BharatVizError
                   ("DataFrame must have 'state' and 'value' columns. "
                    +:+ "Got: " +:+ py_str_labels (columns df)))
             else Ok df);
      sel ← getitem_list ["state"; "value"] df';
      Ok (to_dict_records sel)
  | Rows l => Ok l
  end.

(** Source lines 351-364. *)
Definition normalize_districts (data : table) : Result (list record) :=
  match data with
  | Frame df =>
      let required_cols := ["state"; "district"; "value"] in
      df' ← (if negb (forallb (fun col => col_in col df) required_cols) then
               if bool_decide (3 ≤ length (columns df)) then
                 set_columns df ((LStr <$> required_cols) ++ drop 3 (columns df))
               else
                 Raise (BharatVizError
                   ("DataFrame must have 'state', 'district' and 'value' columns. "
                    +:+ "Got: " +:+ py_str_labels (columns df)))
             else Ok df);
      sel ← getitem_list required_cols df';
      Ok (to_dict_records sel)
  | Rows l => Ok l
  end.

(** The keyword arguments of [generate_map] (source lines 96-127). *)
Module States.
Record args : Type := mk {
  title : string;
  legend_title : string;
  color_scale : string;
  invert_colors : bool;
  hide_state_names : bool;
  hide_values : bool;
  formats : list string;
  show : bool;
  save_path : option string;
  return_all : bool;
  figsize : Q * Q
}.

Definition defaults : args :=
  {| title := "BharatViz"; legend_title := "Values";
     color_scale := "spectral"; invert_colors := false;
     hide_state_names := false; hide_values := false;
     formats := ["png"]; show := false; save_path := None;
     return_all := false; figsize := (12, 12)%Q |}.
End States.

(** The keyword arguments of [generate_districts_map] (lines 273-305). *)
Module Districts.
Record args : Type := mk {
  map_type : string;
  title : string;
  legend_title : string;
  color_scale : string;
  invert_colors : bool;
  hide_values : bool;
  show_state_boundaries : bool;
  formats : list string;
  show : bool;
  save_path : option string;
  return_all : bool;
  figsize : Q * Q
}.

Definition defaults : args :=
  {| map_type := "LGD"; title := "BharatViz Districts";
     legend_title := "Values"; color_scale := "spectral";
     invert_colors := false; hide_values := false;
     show_state_boundaries := true; formats := ["png"]; show := false;
     save_path := None; return_all := false; figsize := (12, 12)%Q |}.
End Districts.

Definition py_strs (l : list string) : pyval := PList (PStr <$> l).

(** Source lines 186-207: the two checks, then the body. *)
Definition build_states_request (data : table) (a : States.args)
  : Result pyval :=
  data ← normalize_states data;
  if bool_decide (length data = 0) then
    Raise (BharatVizError "Data cannot be empty")
  else if negb (bool_decide (States.color_scale a ∈ COLOR_SCALES)) then
    Raise (BharatVizError
      ("Invalid color scale '" +:+ States.color_scale a +:+ "'. "
       +:+ "Choose from: " +:+ str_join ", " COLOR_SCALES))
  else
    Ok (PDict (list_to_map
      [ ("data", PList (PDict <$> data));
        ("colorScale", PStr (States.color_scale a));
        ("invertColors", PBool (States.invert_colors a));
        ("hideStateNames", PBool (States.hide_state_names a));
        ("hideValues", PBool (States.hide_values a));
        ("mainTitle", PStr (States.title a));
        ("legendTitle", PStr (States.legend_title a));
        ("formats", py_strs (States.formats a)) ])).

(** Source lines 366-396. *)
Definition build_districts_request (data : table) (a : Districts.args)
  : Result pyval :=
  data ← normalize_districts data;
  if bool_decide (length data = 0) then
    Raise (BharatVizError "Data cannot be empty")
  else if negb (bool_decide (Districts.color_scale a ∈ COLOR_SCALES)) then
    Raise (BharatVizError
      ("Invalid color scale '" +:+ Districts.color_scale a +:+ "'. "
       +:+ "Choose from: " +:+ str_join ", " COLOR_SCALES))
  else if negb (bool_decide (Districts.map_type a ∈ valid_map_types)) then
    Raise (BharatVizError
      ("Invalid map_type '" +:+ Districts.map_type a +:+ "'. "
       +:+ "Choose from: " +:+ str_join ", " valid_map_types))
  else
    Ok (PDict (list_to_map
      [ ("data", PList (PDict <$> data));
        ("mapType", PStr (Districts.map_type a));
        ("colorScale", PStr (Districts.color_scale a));
        ("invertColors", PBool (Districts.invert_colors a));
        ("hideValues", PBool (Districts.hide_values a));
        ("showStateBoundaries", PBool (Districts.show_state_boundaries a));
        ("mainTitle", PStr (Districts.title a));
        ("legendTitle", PStr (Districts.legend_title a));
        ("formats", py_strs (Districts.formats a)) ])).

(** ** Base64 *)

(** The value of a character of the standard alphabet. *)
Definition b64_value (a : ascii) : option N :=
  let n := N_of_ascii a in
  if (65 <=? n)%N && (n <=? 90)%N then Some (n - 65)%N
  else if (97 <=? n)%N && (n <=? 122)%N then Some (n - 71)%N
  else if (48 <=? n)%N && (n <=? 57)%N then Some (n + 4)%N
  else if (n =? 43)%N then Some 62%N
  else if (n =? 47)%N then Some 63%N
  else None.

Definition byte_of_N (n : N) : byte := byte_of_ascii (ascii_of_N n).

(** The decoder's registers: the position inside the current group of four
    characters, the bits left over from the previous character, the padding
    characters seen in a row, and the output so far. *)
Record b64_state : Type := mk_b64 {
  quad_pos : nat;
  leftchar : N;
  pads : nat;
  bin_data : bytes
}.

(** [binascii.a2b_base64] without strict mode: a character outside the
    alphabet is skipped, a complete padding ends the input, and what follows
    it is not read. *)
Fixpoint a2b_loop (st : b64_state) (s : list ascii) : Result bytes :=
  match s with
  | [] =>
      if bool_decide (quad_pos st = 0) then Ok (bin_data st)
      else Raise ValueError
  | ch :: s' =>
      if Ascii.eqb ch "="%char then
        if bool_decide (2 ≤ quad_pos st) then
          if bool_decide (4 ≤ quad_pos st + S (pads st)) then Ok (bin_data st)
          else a2b_loop (mk_b64 (quad_pos st) (leftchar st) (S (pads st))
                                (bin_data st)) s'
        else a2b_loop st s'
      else
        match b64_value ch with
        | None => a2b_loop st s'
        | Some this_ch =>
            match quad_pos st with
            | 0 => a2b_loop (mk_b64 1 this_ch 0 (bin_data st)) s'
            | 1 =>
                a2b_loop (mk_b64 2 (N.land this_ch 15) 0
                  (bin_data st ++
                   [byte_of_N (N.lor (N.shiftl (leftchar st) 2)
                                     (N.shiftr this_ch 4))])) s'
            | 2 =>
                a2b_loop (mk_b64 3 (N.land this_ch 3) 0
                  (bin_data st ++
                   [byte_of_N (N.lor (N.shiftl (leftchar st) 4)
                                     (N.shiftr this_ch 2))])) s'
            | _ =>
                a2b_loop (mk_b64 0 0 0
                  (bin_data st ++
                   [byte_of_N (N.lor (N.shiftl (leftchar st) 6) this_ch)])) s'
            end
        end
  end.

(** [base64.b64decode(v)]: a [str] must be ASCII, anything that is not text
    is a [TypeError], malformed input a [binascii.Error], a [ValueError]. *)
Definition b64decode (v : pyval) : Result bytes :=
  match v with
  | PStr s =>
      if forallb (fun a => (N_of_ascii a <? 128)%N) (String.list_ascii_of_string s)
      then a2b_loop (mk_b64 0 0 0 []) (String.list_ascii_of_string s)
      else Raise ValueError
  | _ => Raise TypeError
  end.

(** [f"{n / 1024:.2f}"] for a byte count [n]: the quotient is exact in
    binary, so the two decimals are those of [n * 100 / 1024] rounded half
    to even. *)
Definition fmt_kb (n : nat) : string :=
  let num := (Z.of_nat n * 100)%Z in
  let q := (num / 1024)%Z in
  let r := (num mod 1024)%Z in
  let q' := if bool_decide (512 < r)%Z || (bool_decide (r = 512)%Z && Z.odd q)
            then (q + 1)%Z else q in
  let cents := (q' mod 100)%Z in
  pretty (q' / 100)%Z +:+ "." +:+
  (if bool_decide (cents < 10)%Z then "0" else "") +:+ pretty cents.

(** ** The client object and the world around it *)

(** The attributes [__init__] sets. *)
Record BharatViz : Type := mkClient {
  api_url : string;
  states_endpoint : string;
  districts_endpoint : string
}.

(** One [requests.post(url, json=..., timeout=...)]. *)
Record HttpCall : Type := mkCall {
  url : string;
  json : pyval;
  timeout : Z
}.

(** What comes back from a post followed by [raise_for_status()] and
    [response.json()]: a [RequestException] with its text, a body that is
    not JSON, or the parsed body. *)
Inductive HttpReply : Type :=
| RequestException (str_e : string)
| InvalidJson
| JsonBody (v : pyval).

(** A PIL image opened from a byte stream keeps that stream as its file. *)
Record Image : Type := mkImage { fp : bytes }.

(** One figure put on screen by [plt.show()]. *)
Record Figure : Type := mkFigure {
  fig_size : Q * Q;
  fig_image : Image;
  fig_title : string
}.

(** Everything a call can read or change: the client object itself, the
    posts issued so far, the files, the lines printed and the figures
    shown. *)
Record World : Type := mkWorld {
  this : BharatViz;
  posts : list HttpCall;
  files : gmap string bytes;
  stdout : list string;
  shown : list Figure
}.

(** What the module takes from its environment: the two availability flags
    set at import time, the remote service (its answer may depend on the
    posts it has already received), PIL's format detection and encoder, the
    paths that can be opened for writing, [str()] of a value that is not a
    string, the lines the standard output can encode, and what matplotlib
    does with a figure before it is on screen: creating it (a size it
    refuses is a [ValueError]), loading the lazily opened image in [imshow],
    laying it out. *)
Record Runtime : Type := mkRuntime {
  PIL_AVAILABLE : bool;
  MPL_AVAILABLE : bool;
  server : list HttpCall -> HttpCall -> HttpReply;
  Image_identify : bytes -> bool;
  Image_encode : Image -> string -> Result bytes;
  writable : string -> bool;
  str_other : pyval -> string;
  stdout_encodes : string -> bool;
  plt_render : Figure -> Result unit
}.

(** A computation that may change the world and may raise. *)
Definition M (A : Type) : Type := World -> Result A * World.

#[global] Instance M_ret : MRet M := fun A a w => (Ok a, w).
#[global] Instance M_bind : MBind M := fun A B k m w =>
  match m w with
  | (Ok a, w') => k a w'
  | (Raise e, w') => (Raise e, w')
  end.

Definition raise {A} (e : exn) : M A := fun w => (Raise e, w).

Definition lift {A} (r : Result A) : M A := fun w => (r, w).

Definition get_this : M BharatViz := fun w => (Ok (this w), w).

Definition set_this (c : BharatViz) : M unit := fun w =>
  (Ok tt, mkWorld c (posts w) (files w) (stdout w) (shown w)).

(** The world once [call] has been sent. *)
Definition after_post (w : World) (call : HttpCall) : World :=
  mkWorld (this w) (posts w ++ [call]) (files w) (stdout w) (shown w).

(** The value a map-generation call returns: the image, or with
    [return_all] the dict of image, exports and metadata. *)
Inductive MapOutput : Type :=
| ImageOnly (image : Image)
| AllExports (image : Image) (exports metadata : pyval).

(** The keywords [save_all_formats] can forward through [**kwargs]: absent,
    or present with a value.  [formats] and [return_all] are passed by the
    method itself and [map_type] is its own parameter, so none of the three
    can arrive this way. *)
Record kwargs : Type := mkKwargs {
  kw_title : option string;
  kw_legend_title : option string;
  kw_color_scale : option string;
  kw_invert_colors : option bool;
  kw_hide_state_names : option bool;
  kw_hide_values : option bool;
  kw_show_state_boundaries : option bool;
  kw_show : option bool;
  kw_save_path : option (option string);
  kw_figsize : option (Q * Q)
}.

Definition no_kwargs : kwargs :=
  mkKwargs None None None None None None None None None None.

(** Binding [formats=..., return_all=True, **kwargs] to the parameters of
    [generate_map]: a keyword the function does not have is a [TypeError]. *)
Definition bind_states_args (formats : list string) (kw : kwargs)
  : Result States.args :=
  match kw_show_state_boundaries kw with
  | Some _ => Raise TypeError
  | None =>
      let d := States.defaults in
      Ok (States.mk
            (default (States.title d) (kw_title kw))
            (default (States.legend_title d) (kw_legend_title kw))
            (default (States.color_scale d) (kw_color_scale kw))
            (default (States.invert_colors d) (kw_invert_colors kw))
            (default (States.hide_state_names d) (kw_hide_state_names kw))
            (default (States.hide_values d) (kw_hide_values kw))
            formats
            (default (States.show d) (kw_show kw))
            (default (States.save_path d) (kw_save_path kw))
            true
            (default (States.figsize d) (kw_figsize kw)))
  end.

(** The same for [generate_districts_map]. *)
Definition bind_districts_args (formats : list string) (kw : kwargs)
  : Result Districts.args :=
  match kw_hide_state_names kw with
  | Some _ => Raise TypeError
  | None =>
      let d := Districts.defaults in
      Ok (Districts.mk
            (Districts.map_type d)
            (default (Districts.title d) (kw_title kw))
            (default (Districts.legend_title d) (kw_legend_title kw))
            (default (Districts.color_scale d) (kw_color_scale kw))
            (default (Districts.invert_colors d) (kw_invert_colors kw))
            (default (Districts.hide_values d) (kw_hide_values kw))
            (default (Districts.show_state_boundaries d)
                     (kw_show_state_boundaries kw))
            formats
            (default (Districts.show d) (kw_show kw))
            (default (Districts.save_path d) (kw_save_path kw))
            true
            (default (Districts.figsize d) (kw_figsize kw)))
  end.

(** The image a map-generation call returned, alone or under [image]. *)
Definition output_image (out : MapOutput) : Image :=
  match out with
  | ImageOnly image => image
  | AllExports image _ _ => image
  end.

(** [result[key]] on what a map-generation call returned: the image alone
    takes no string subscript. *)
Definition output_getitem (out : MapOutput) (key : string) : Result pyval :=
  match out with
  | AllExports _ exports metadata =>
      if String.eqb key "exports" then Ok exports
      else if String.eqb key "metadata" then Ok metadata
      else if String.eqb key "image" then Raise TypeError
      else Raise (KeyError key)
  | ImageOnly _ => Raise TypeError
  end.

Section Client.

Context (rt : Runtime).

(** [str(v)], as an f-string formats a value. *)
Definition py_str (v : pyval) : string :=
  match v with
  | PStr s => s
  | _ => str_other rt v
  end.

(** [print(line)]: a line the standard output cannot encode is a
    [UnicodeEncodeError], a [ValueError], and nothing is printed. *)
Definition print (line : string) : M unit := fun w =>
  if stdout_encodes rt line then
    (Ok tt,
     mkWorld (this w) (posts w) (files w) (stdout w ++ [line]) (shown w))
  else (Raise ValueError, w).

(** Source lines 256-261 and 447-452, from [plt.figure] to [plt.show]: the
    figure is on screen when every step before [plt.show] went through. *)
Definition plt_show (f : Figure) : M unit := fun w =>
  match plt_render rt f with
  | Ok _ =>
      (Ok tt,
       mkWorld (this w) (posts w) (files w) (stdout w) (shown w ++ [f]))
  | Raise e => (Raise e, w)
  end.

(** [requests.post(endpoint, json=body, timeout=t)]. *)
Definition requests_post (endpoint : string) (body : pyval) (t : Z)
  : M HttpReply := fun w =>
  let call := mkCall endpoint body t in
  (Ok (server rt (posts w) call), after_post w call).

(** [open(filename, "wb")] followed by one [write]. *)
Definition write_file (filename : string) (content : bytes) : M unit := fun w =>
  if writable rt filename then
    (Ok tt, mkWorld (this w) (posts w) (<[filename := content]> (files w))
                    (stdout w) (shown w))
  else (Raise OSError, w).

(** [Image.open(BytesIO(raw))]: an unidentified stream is an [OSError]. *)
Definition Image_open (raw : bytes) : Result Image :=
  if Image_identify rt raw then Ok (mkImage raw) else Raise OSError.

(** [image.save(path)]. *)
Definition Image_save (image : Image) (path : string) : M unit :=
  content ← lift (Image_encode rt image path);
  write_file path content.

(** Source lines 91-94. *)
Definition __init__ (api_url : string) : M unit :=
  let api_url := rstrip "/" api_url in
  set_this (mkClient api_url
              (api_url +:+ "/api/v1/states/map")
              (api_url +:+ "/api/v1/districts/map")).

(** [next((e for e in exports if e["format"] == "png"), None)] over the
    elements of [exports]. *)
Fixpoint first_png (es : list pyval) : Result (option pyval) :=
  match es with
  | [] => Ok None
  | e :: es' =>
      f ← py_getitem e "format";
      if py_eq_str f "png" then Ok (Some e) else first_png es'
  end.

(** [if save_path:]. *)
Definition path_given (save_path : option string) : option string :=
  match save_path with
  | Some p => if String.eqb p "" then None else Some p
  | None => None
  end.

(** Source lines 243-261 and 434-452: save the image if a path was given,
    then display it if asked to. *)
Definition present (saved_line : string) (title : string) (show : bool)
    (save_path : option string) (figsize : Q * Q) (image : Image) : M unit :=
  _ ← match path_given save_path with
      | Some p => _ ← Image_save image p; print (saved_line +:+ p)
      | None => mret tt
      end;
  if show then
    if negb (MPL_AVAILABLE rt) then
      raise (BharatVizError
        ("matplotlib is required to display images. "
         +:+ "Install with: pip install matplotlib"))
    else plt_show (mkFigure figsize image title)
  else mret tt.

(** Source lines 224-271 and, with the other saved-to line, 415-462: from the
    parsed body to the returned value. *)
Definition decode (saved_line : string) (title : string) (show : bool)
    (save_path : option string) (return_all : bool) (figsize : Q * Q)
    (result : pyval) : M MapOutput :=
  success ← lift (py_get result "success" PNone);
  if negb (py_truthy success) then
    err ← lift (py_get result "error" (PDict ∅));
    error_msg ← lift (py_get err "message" (PStr "Unknown error"));
    raise (BharatVizError ("API error: " +:+ py_str error_msg))
  else
    exports ← lift (py_getitem result "exports");
    es ← lift (py_iter exports);
    png_export ← lift (first_png es);
    match png_export with
    | None => raise (BharatVizError "PNG export not found in response")
    | Some png_export =>
        if negb (py_truthy png_export) then
          raise (BharatVizError "PNG export not found in response")
        else if negb (PIL_AVAILABLE rt) then
          raise (BharatVizError
            "PIL is required to handle images. Install with: pip install pillow")
        else
          png_data ← lift (py_getitem png_export "data");
          raw ← lift (b64decode png_data);
          image ← lift (Image_open raw);
          _ ← present saved_line title show save_path figsize image;
          if return_all then
            exports ← lift (py_getitem result "exports");
            metadata ← lift (py_getitem result "metadata");
            mret (AllExports image exports metadata)
          else mret (ImageOnly image)
    end.

(** [BharatViz.generate_map], source lines 170-271. *)
Definition generate_map (data : table) (a : States.args) : M MapOutput :=
  request_body ← lift (build_states_request data a);
  self ← get_this;
  reply ← requests_post (states_endpoint self) request_body 30;
  match reply with
  | RequestException e =>
      raise (BharatVizError ("API request failed: " +:+ e))
  | InvalidJson => raise (BharatVizError "Invalid JSON response from API")
  | JsonBody result =>
      decode "✅ Map saved to: " (States.title a) (States.show a)
             (States.save_path a) (States.return_all a) (States.figsize a)
             result
  end.

(** [BharatViz.generate_districts_map], source lines 350-462. *)
Definition generate_districts_map (data : table) (a : Districts.args)
  : M MapOutput :=
  request_body ← lift (build_districts_request data a);
  self ← get_this;
  reply ← requests_post (districts_endpoint self) request_body 60;
  match reply with
  | RequestException e =>
      raise (BharatVizError ("API request failed: " +:+ e))
  | InvalidJson => raise (BharatVizError "Invalid JSON response from API")
  | JsonBody result =>
      decode "✅ Districts map saved to: " (Districts.title a)
             (Districts.show a) (Districts.save_path a)
             (Districts.return_all a) (Districts.figsize a) result
  end.

(** [BharatViz.get_metadata], source lines 464-479. *)
Definition get_metadata (data : table) : M pyval :=
  let args := States.mk "BharatViz" "Values" "spectral" false false false
                        ["svg"] false None true (12, 12)%Q in
  result ← generate_map data args;
  lift (output_getitem result "metadata").

(** The loop of [save_all_formats], source lines 523-531. *)
Fixpoint save_exports (basename : string) (es : list pyval) : M unit :=
  match es with
  | [] => mret tt
  | export :: es' =>
      format ← lift (py_getitem export "format");
      let filename := basename +:+ "." +:+ py_str format in
      data ← lift (py_getitem export "data");
      file_data ← lift (b64decode data);
      _ ← write_file filename file_data;
      _ ← print ("✅ Saved " +:+ filename +:+ " ("
                 +:+ fmt_kb (length file_data) +:+ " KB)");
      save_exports basename es'
  end.

(** [BharatViz.save_all_formats], source lines 481-531. *)
Definition save_all_formats (data : table) (basename : string)
    (map_type : string) (kw : kwargs) : M unit :=
  result ← (if String.eqb map_type "districts" then
              args ← lift (bind_districts_args ["png"; "svg"; "pdf"] kw);
              generate_districts_map data args
            else
              args ← lift (bind_states_args ["png"; "svg"; "pdf"] kw);
              generate_map data args);
  exports ← lift (output_getitem result "exports");
  es ← lift (py_iter exports);
  save_exports basename es.

End Client.

(** ** Vocabulary of the properties *)

(** The keys a state-level record is expected to carry. *)
Definition state_keys : gset string := {[ "state"; "value" ]}.
Definition district_keys : gset string := {[ "state"; "district"; "value" ]}.

(** The [data] field of a request body, when it is a list of dicts. *)
Definition body_records (body : pyval) : option (list record) :=
  match body with
  | PDict d =>
      match d !! "data" with
      | Some (PList l) =>
          mapM (fun v => match v with PDict r => Some r | _ => None end) l
      | _ => None
      end
  | _ => None
  end.

(** The client object and the posts are the same in both worlds. *)
Definition same_client_and_posts (w w' : World) : Prop :=
  this w' = this w /\ posts w' = posts w.

(** The row-oriented reading of a frame under the given names: row by row,
    the leading cells paired with those names. *)
Definition records_as (names : list string) (df : DataFrame label)
  : list record :=
  to_dict_records (mkFrame names (rows df)).

(** The posts sent between two worlds. *)
Definition issued_by (w w' : World) : list HttpCall :=
  drop (length (posts w)) (posts w').

(** ** A fixed environment for the worked examples *)

(** A runtime with both libraries present, a service that answers every
    post with [reply], every stream an image, every path writable, every
    line printable and every figure displayable. *)
Definition answering (reply : HttpReply) : Runtime :=
  mkRuntime true true (fun _ _ => reply) (fun _ => true)
    (fun image _ => Ok (fp image)) (fun _ => true) (fun _ => "")
    (fun _ => true) (fun _ => Ok tt).

(** The same with a PIL that takes a stream for an image only when it
    starts with the eight bytes of the PNG signature. *)
Definition png_signature : bytes :=
  [x89; x50; x4e; x47; x0d; x0a; x1a; x0a]%byte.

Definition has_png_signature (raw : bytes) : bool :=
  bool_decide (8 ≤ length raw)
  && forallb (fun bb => Byte.eqb bb.1 bb.2) (zip raw png_signature).

Definition checking_signature (reply : HttpReply) : Runtime :=
  mkRuntime true true (fun _ _ => reply) has_png_signature
    (fun image _ => Ok (fp image)) (fun _ => true) (fun _ => "")
    (fun _ => true) (fun _ => Ok tt).

(** The same as [answering] with a standard output that encodes ASCII
    only. *)
Definition ascii_stdout (reply : HttpReply) : Runtime :=
  mkRuntime true true (fun _ _ => reply) (fun _ => true)
    (fun image _ => Ok (fp image)) (fun _ => true) (fun _ => "")
    (fun line => forallb (fun a => (N_of_ascii a <? 128)%N)
                         (String.list_ascii_of_string line))
    (fun _ => Ok tt).

(** The world right after [BharatViz()] with the default address. *)
Definition fresh_world : World :=
  mkWorld (mkClient "http://bharatviz.saketlab.in"
             "http://bharatviz.saketlab.in/api/v1/states/map"
             "http://bharatviz.saketlab.in/api/v1/districts/map")
          [] ∅ [] [].

Definition goa : record :=
  list_to_map [("state", PStr "Goa"); ("value", PNum 1)].

Definition goa_noted : record :=
  list_to_map [("state", PStr "Goa"); ("value", PNum 1); ("note", PStr "x")].

Definition panaji : record :=
  list_to_map [("state", PStr "Goa"); ("district", PStr "North Goa");
               ("value", PNum 1)].

(** An export entry whose format is not [png]. *)
Definition other_export (v : pyval) : Prop :=
  exists d f, v = PDict d /\ d !! "format" = Some f /\ py_eq_str f "png" = false.

(** An export entry of format [format] carrying [payload]. *)
Definition export_of (format : string) (payload : pyval) (v : pyval) : Prop :=
  exists d, v = PDict d /\ d !! "format" = Some (PStr format) /\
            d !! "data" = Some payload.

(** The arguments [save_all_formats] calls the two generators with when no
    keyword is forwarded. *)
Definition states_all_formats : States.args :=
  States.mk "BharatViz" "Values" "spectral" false false false
            ["png"; "svg"; "pdf"] false None true (12, 12)%Q.

Definition districts_all_formats : Districts.args :=
  Districts.mk "LGD" "BharatViz Districts" "Values" "spectral" false false
               true ["png"; "svg"; "pdf"] false None true (12, 12)%Q.

(** The line [save_all_formats] prints for one file. *)
Definition saved_report (filename : string) (content : bytes) : string :=
  "✅ Saved " +:+ filename +:+ " (" +:+ fmt_kb (length content) +:+ " KB)".

(** [c * k]: the character [c] repeated [k] times. *)
Fixpoint repeat_char (c : ascii) (k : nat) : string :=
  match k with
  | 0 => EmptyString
  | S k' => String c (repeat_char c k')
  end.

(** A well-formed export entry. *)
Definition export_entry (format data : string) : pyval :=
  PDict (list_to_map [("format", PStr format); ("data", PStr data)]).

(** Bodies the service may answer with. *)
Definition png_entry : pyval :=
  PDict (list_to_map [("format", PStr "png"); ("data", PStr "aGk=")]).
Definition svg_entry : pyval :=
  PDict (list_to_map [("format", PStr "svg"); ("data", PStr "PHN2Zy8+")]).
Definition pdf_entry : pyval :=
  PDict (list_to_map [("format", PStr "pdf"); ("data", PStr "JVBERg==")]).

Definition stats : pyval :=
  PDict (list_to_map [("min", PNum 1); ("max", PNum 1)]).

Definition three_exports_response : gmap string pyval :=
  list_to_map [("success", PBool true);
               ("exports", PList [png_entry; svg_entry; pdf_entry]);
               ("metadata", stats)].

Definition svg_only_response : gmap string pyval :=
  list_to_map [("success", PBool true);
               ("exports", PList [svg_entry]);
               ("metadata", stats)].

Definition failure_response : gmap string pyval :=
  list_to_map [("success", PBool false);
               ("error", PDict (list_to_map [("message", PStr "bad state name")]))].

Definition bare_success_response : gmap string pyval :=
  list_to_map [("success", PBool true)].

(** Frames for the worked examples: too few columns, other names, no row,
    and a third column that already carries a required name. *)
Definition one_column : DataFrame label :=
  mkFrame [LStr "region"] [[PStr "Goa"]].
Definition unnamed_columns : DataFrame label :=
  mkFrame [LInt 0; LInt 1] [[PStr "Goa"; PNum 1]].
Definition named_columns : DataFrame label :=
  mkFrame [LStr "state"; LStr "value"] [[PStr "Goa"; PNum 1]].
Definition no_rows : DataFrame label :=
  mkFrame [LStr "a"; LStr "b"] [].
Definition late_state_column : DataFrame label :=
  mkFrame [LStr "a"; LStr "b"; LStr "state"]
          [[PStr "Goa"; PNum 1; PStr "Kerala"]].
Definition named_district_columns : DataFrame label :=
  mkFrame [LStr "state"; LStr "district"; LStr "value"]
          [[PStr "Goa"; PStr "North Goa"; PNum 1]].
Definition unnamed_district_columns : DataFrame label :=
  mkFrame [LInt 0; LInt 1; LInt 2] [[PStr "Goa"; PStr "North Goa"; PNum 1]].
Definition two_columns : DataFrame label :=
  mkFrame [LStr "state"; LStr "value"] [[PStr "Goa"; PNum 1]].

(** District arguments with a map type outside the recognised three. *)
Definition census_args : Districts.args :=
  Districts.mk "CENSUS" "BharatViz Districts" "Values" "spectral" false false
               true ["png"] false None false (12, 12)%Q.

(** The body [generate_map] builds for the one-record list with the default
    arguments, and its districts counterpart. *)
Definition goa_request : pyval :=
  PDict (list_to_map
    [ ("data", PList [PDict goa]); ("colorScale", PStr "spectral");
      ("invertColors", PBool false); ("hideStateNames", PBool false);
      ("hideValues", PBool false); ("mainTitle", PStr "BharatViz");
      ("legendTitle", PStr "Values"); ("formats", PList [PStr "png"]) ]).

Definition panaji_request : pyval :=
  PDict (list_to_map
    [ ("data", PList [PDict panaji]); ("mapType", PStr "LGD");
      ("colorScale", PStr "spectral"); ("invertColors", PBool false);
      ("hideValues", PBool false); ("showStateBoundaries", PBool true);
      ("mainTitle", PStr "BharatViz Districts");
      ("legendTitle", PStr "Values"); ("formats", PList [PStr "png"]) ]).

(** ** The static helpers and the module-level shortcuts *)

(** [BharatViz.from_dict], source lines 622-642; [data] stands for
    [data.items()], the pairs of the dict in insertion order. *)
Definition from_dict (data : list (string * pyval)) : list record :=
  (fun kv => list_to_map [("state", PStr kv.1); ("value", kv.2)]) <$> data.

(** The two builtin errors the frame helpers let through. *)
Module Helper.
Inductive error : Type :=
| IndexError
| KeyError.
End Helper.

(** The positions, in increasing order, of the columns labelled [c]. *)
Fixpoint label_positions_from (i : nat) (c : label) (cols : list label)
  : list nat :=
  match cols with
  | [] => []
  | c' :: cols' =>
      if bool_decide (c' = c)
      then i :: label_positions_from (S i) c cols'
      else label_positions_from (S i) c cols'
  end.

(** The indexer of [df[keys]] for arbitrary labels; [None] is the
    [KeyError] of a key that labels no column. *)
Fixpoint get_label_indexer (keys : list label) (cols : list label)
  : option (list (label * nat)) :=
  match keys with
  | [] => Some []
  | k :: keys' =>
      match label_positions_from 0 k cols with
      | [] => None
      | ps =>
          rest ← get_label_indexer keys' cols;
          Some (((fun p => (k, p)) <$> ps) ++ rest)
      end
  end.

(** [df[keys]] for a list of arbitrary labels. *)
Definition getitem_labels (keys : list label) (df : DataFrame label)
  : option (DataFrame label) :=
  ix ← get_label_indexer keys (columns df);
  Some (mkFrame (ix.*1) (take_cells (ix.*2) <$> rows df)).

(** [BharatViz.from_dataframe], source lines 580-620.  Every column of the
    selection is labelled [state_col] or [value_col], so the renaming sends
    it to one of the two names; in the dict literal the entry of [value_col]
    comes last and wins when both are the same label. *)
Definition from_dataframe (df : DataFrame label)
    (state_col value_col : option label) : Helper.error + list record :=
  match (match state_col with Some c => Some c | None => columns df !! 0 end) with
  | None => inl Helper.IndexError
  | Some state_col =>
      match (match value_col with Some c => Some c | None => columns df !! 1 end) with
      | None => inl Helper.IndexError
      | Some value_col =>
          match getitem_labels [state_col; value_col] df with
          | None => inl Helper.KeyError
          | Some sel =>
              let renamed :=
                (fun c => if bool_decide (c = value_col) then "value"
                          else "state") <$> columns sel in
              inr (to_dict_records (mkFrame renamed (rows sel)))
          end
      end
  end.

(** [BharatViz.from_dataframe_districts], source lines 644-696. *)
Definition from_dataframe_districts (df : DataFrame label)
    (state_col district_col value_col : option label)
  : Helper.error + list record :=
  match (match state_col with Some c => Some c | None => columns df !! 0 end) with
  | None => inl Helper.IndexError
  | Some state_col =>
      match (match district_col with Some c => Some c | None => columns df !! 1 end) with
      | None => inl Helper.IndexError
      | Some district_col =>
          match (match value_col with Some c => Some c | None => columns df !! 2 end) with
          | None => inl Helper.IndexError
          | Some value_col =>
              match getitem_labels [state_col; district_col; value_col] df with
              | None => inl Helper.KeyError
              | Some sel =>
                  let renamed :=
                    (fun c => if bool_decide (c = value_col) then "value"
                              else if bool_decide (c = district_col)
                                   then "district"
                                   else "state") <$> columns sel in
                  inr (to_dict_records (mkFrame renamed (rows sel)))
              end
          end
      end
  end.

(** A call made on a client of its own: [bv = BharatViz(api_url)] is a new
    object, the receiver of [call], and goes out of scope on return, so the
    client of the caller is the one it was. *)
Definition with_new_client {A} (api_url : string) (call : M A) : M A :=
  fun w =>
    let '(r, w') := (_ ← __init__ api_url; call) w in
    (r, mkWorld (this w) (posts w') (files w') (stdout w') (shown w')).

Section Shortcuts.

Context (rt : Runtime).

(** [quick_map], source lines 700-744. *)
Definition quick_map (data : table) (title legend_title color_scale : string)
    (save_path : option string) (api_url : string) : M MapOutput :=
  with_new_client api_url
    (generate_map rt data
       (States.mk title legend_title color_scale false false false ["png"]
                  true save_path false (12, 12)%Q)).

(** [quick_districts_map], source lines 747-795. *)
Definition quick_districts_map (data : table)
    (title legend_title color_scale map_type : string)
    (save_path : option string) (api_url : string) : M MapOutput :=
  with_new_client api_url
    (generate_districts_map rt data
       (Districts.mk map_type title legend_title color_scale false false true
                     ["png"] true save_path false (12, 12)%Q)).

End Shortcuts.

(** ** Vocabulary of the further properties *)

(** The file system after the writes of [save_exports], one per export, in
    the order of the list. *)
Definition written (basename : string) (saved : list (string * bytes))
    (fs : gmap string bytes) : gmap string bytes :=
  foldl (fun fs fb => <[basename +:+ "." +:+ fb.1 := fb.2]> fs) fs saved.

(** The lines [save_exports] prints for those writes. *)
Definition reports (basename : string) (saved : list (string * bytes))
  : list string :=
  (fun fb => saved_report (basename +:+ "." +:+ fb.1) fb.2) <$> saved.

(** The [formats] field of a request body. *)
Definition body_formats (body : pyval) : option pyval :=
  match body with
  | PDict d => d !! "formats"
  | _ => None
  end.

(** What makes one export savable under [basename]: a dict with the format
    and a payload that decodes, a path that can be written, and a report
    line the standard output can encode. *)
Definition savable (rt : Runtime) (basename : string) (e : pyval)
    (fb : string * bytes) : Prop :=
  exists payload,
    export_of fb.1 payload e /\ b64decode payload = Ok fb.2 /\
    writable rt (basename +:+ "." +:+ fb.1) = true /\
    stdout_encodes rt (saved_report (basename +:+ "." +:+ fb.1) fb.2) = true.

(** The call [save_all_formats] makes when no keyword is forwarded. *)
Definition all_formats_call (rt : Runtime) (data : table) (map_type : string)
  : M MapOutput :=
  if String.eqb map_type "districts"
  then generate_districts_map rt data districts_all_formats
  else generate_map rt data states_all_formats.

(** ** Further fixed environments and inputs *)

(** The answering runtime without PIL, and without matplotlib. *)
Definition without_pil (reply : HttpReply) : Runtime :=
  mkRuntime false true (fun _ _ => reply) (fun _ => true)
    (fun image _ => Ok (fp image)) (fun _ => true) (fun _ => "")
    (fun _ => true) (fun _ => Ok tt).

Definition without_matplotlib (reply : HttpReply) : Runtime :=
  mkRuntime true false (fun _ _ => reply) (fun _ => true)
    (fun image _ => Ok (fp image)) (fun _ => true) (fun _ => "")
    (fun _ => true) (fun _ => Ok tt).

Definition png_only_response : gmap string pyval :=
  list_to_map [("success", PBool true); ("exports", PList [png_entry])].

Definition silent_failure_response : gmap string pyval :=
  list_to_map [("success", PBool false)].



Definition reordered_columns : DataFrame label :=
  mkFrame [LStr "value"; LStr "year"; LStr "state"]
          [[PNum 1; PNum 2011; PStr "Goa"]].

Definition reordered_district_columns : DataFrame label :=
  mkFrame [LStr "value"; LStr "district"; LStr "year"; LStr "state"]
          [[PNum 1; PStr "North Goa"; PNum 2011; PStr "Goa"]].

Definition plasma_typo : States.args :=
  States.mk "BharatViz" "Values" "plazma" false false false ["png"] false
            None false (12, 12)%Q.

(** * Properties *)

(** ** Sanity checks of the library models *)

Example repr_plain : py_repr_str "a" = "'a'".
Proof. reflexivity. Qed.

Example repr_quote : py_repr_str "it's" = String "034" ("it's" +:+ String "034" "").
Proof. reflexivity. Qed.

Example rstrip_ex : rstrip "/" "http://h//" = "http://h".
Proof. reflexivity. Qed.

Example b64decode_hi :
  b64decode (PStr "aGk=") = Ok (String.list_byte_of_string "hi").
Proof. reflexivity. Qed.

Example b64decode_bad_padding : b64decode (PStr "aGk") = Raise ValueError.
Proof. reflexivity. Qed.

Example fmt_kb_2048 : fmt_kb 2048 = "2.00".
Proof. vm_compute. reflexivity. Qed.

Example fmt_kb_3 : fmt_kb 3 = "0.00".
Proof. vm_compute. reflexivity. Qed.

Example fmt_kb_100 : fmt_kb 100 = "0.10".
Proof. vm_compute. reflexivity. Qed.

(** ** Running a computation *)

Lemma run_bind {A B} (m : M A) (k : A -> M B) (w : World) :
  (m ≫= k) w =
  match m w with
  | (Ok a, w') => k a w'
  | (Raise e, w') => (Raise e, w')
  end.
Proof. reflexivity. Qed.

Lemma mapM_PDict (l : list record) :
  mapM (fun v => match v with PDict r => Some r | _ => None end) (PDict <$> l)
  = Some l.
Proof.
  induction l as [|r l IH]; [reflexivity|].
  cbn. cbn in IH. rewrite IH. reflexivity.
Qed.

(** ** Strings *)

Lemma str_app_assoc (a b c : string) : (a +:+ b) +:+ c = a +:+ b +:+ c.
Proof.
  induction a as [|x a IH]; [reflexivity|].
  change (String x ((a +:+ b) +:+ c) = String x (a +:+ b +:+ c)).
  by rewrite IH.
Qed.

Lemma str_app_nil_r (a : string) : a +:+ "" = a.
Proof.
  induction a as [|x a IH]; [reflexivity|].
  change (String x (a +:+ "") = String x a). by rewrite IH.
Qed.

Lemma contains_refl (s : string) : contains s s.
Proof. exists "", "". cbn. by rewrite str_app_nil_r. Qed.

Lemma contains_app_l (s t sub : string) : contains s sub -> contains (s +:+ t) sub.
Proof.
  intros (pre & post & ->). exists pre, (post +:+ t).
  by rewrite !str_app_assoc.
Qed.

Lemma contains_app_r (s t sub : string) : contains t sub -> contains (s +:+ t) sub.
Proof.
  intros (pre & post & ->). exists (s +:+ pre), post.
  by rewrite !str_app_assoc.
Qed.

Lemma contains_join (sep : string) (l : list string) (x : string) :
  x ∈ l -> contains (str_join sep l) x.
Proof.
  unfold str_join. induction l as [|y l IH]; intros Hin.
  - by apply elem_of_nil in Hin.
  - apply elem_of_cons in Hin as [-> | Hin].
    + destruct l as [|z l]; cbn; [apply contains_refl|].
      apply contains_app_l, contains_refl.
    + destruct l as [|z l]; [by apply elem_of_nil in Hin|].
      change (contains (y +:+ sep +:+ String.concat sep (z :: l)) x).
      by apply contains_app_r, contains_app_r, IH.
Qed.

(** ** Column selection *)

Lemma positions_from_absent (i : nat) (name : string) (cols : list label) :
  LStr name ∉ cols -> positions_from i name cols = [].
Proof.
  revert i. induction cols as [|c cols IH]; intros i Hnot; [reflexivity|].
  cbn. apply not_elem_of_cons in Hnot as [Hne Hnot].
  rewrite bool_decide_false by congruence. by apply IH.
Qed.

Lemma positions_from_present (i : nat) (name : string) (cols : list label) :
  LStr name ∈ cols -> positions_from i name cols <> [].
Proof.
  revert i. induction cols as [|c cols IH]; intros i Hin.
  - by apply elem_of_nil in Hin.
  - cbn. case_bool_decide as Hc; [done|].
    apply elem_of_cons in Hin as [Heq | Hin]; [congruence|]. by apply IH.
Qed.

Lemma get_indexer_present (keys : list string) (cols : list label) :
  Forall (fun k => LStr k ∈ cols) keys ->
  exists ix, get_indexer keys cols = Ok ix.
Proof.
  induction 1 as [|k keys Hk _ [ix IH]]; [by eexists|].
  cbn. pose proof (positions_from_present 0 k cols Hk) as Hps.
  unfold positions. destruct (positions_from 0 k cols) as [|p ps]; [done|].
  rewrite IH. by eexists.
Qed.

Lemma getitem_list_present (keys : list string) (df : DataFrame label) :
  Forall (fun k => LStr k ∈ columns df) keys ->
  exists sel, getitem_list keys df = Ok sel.
Proof.
  intros H. destruct (get_indexer_present _ _ H) as [ix Hix].
  unfold getitem_list. rewrite Hix. by eexists.
Qed.
(** ** Normalisation of column-oriented input *)

Lemma get_indexer_states (rest : list label) :
  LStr "state" ∉ rest -> LStr "value" ∉ rest ->
  get_indexer ["state"; "value"] (LStr "state" :: LStr "value" :: rest)
  = Ok [("state", 0); ("value", 1)].
Proof.
  intros Hs Hv. unfold get_indexer, positions. cbn.
  rewrite (positions_from_absent 2 _ _ Hs), (positions_from_absent 2 _ _ Hv).
  reflexivity.
Qed.

Lemma get_indexer_districts (rest : list label) :
  LStr "state" ∉ rest -> LStr "district" ∉ rest -> LStr "value" ∉ rest ->
  get_indexer ["state"; "district"; "value"]
    (LStr "state" :: LStr "district" :: LStr "value" :: rest)
  = Ok [("state", 0); ("district", 1); ("value", 2)].
Proof.
  intros Hs Hd Hv. unfold get_indexer, positions. cbn.
  rewrite (positions_from_absent 3 _ _ Hs), (positions_from_absent 3 _ _ Hd),
    (positions_from_absent 3 _ _ Hv).
  reflexivity.
Qed.

Lemma dict_zip_take2 (row : list pyval) :
  dict_zip ["state"; "value"] (take_cells [0; 1] row)
  = dict_zip ["state"; "value"] row.
Proof. destruct row as [|s [|v r]]; reflexivity. Qed.

Lemma dict_zip_take3 (row : list pyval) :
  dict_zip ["state"; "district"; "value"] (take_cells [0; 1; 2] row)
  = dict_zip ["state"; "district"; "value"] row.
Proof. destruct row as [|s [|d [|v r]]]; reflexivity. Qed.

(** The records a frame yields once its leading columns carry the required
    names: row by row, the cells paired with those names. *)
Lemma select_states (rest : list label) (rs : list (list pyval)) :
  LStr "state" ∉ rest -> LStr "value" ∉ rest ->
  (sel ← getitem_list ["state"; "value"]
          (mkFrame (LStr "state" :: LStr "value" :: rest) rs);
   Ok (to_dict_records sel))
  = Ok (to_dict_records (mkFrame ["state"; "value"] rs)).
Proof.
  intros Hs Hv. unfold getitem_list. cbn [columns rows].
  rewrite (get_indexer_states rest Hs Hv). cbn.
  unfold to_dict_records. cbn [columns rows]. f_equal.
  rewrite <- list_fmap_compose. apply list_fmap_ext.
  intros i row _. apply dict_zip_take2.
Qed.

Lemma select_districts (rest : list label) (rs : list (list pyval)) :
  LStr "state" ∉ rest -> LStr "district" ∉ rest -> LStr "value" ∉ rest ->
  (sel ← getitem_list ["state"; "district"; "value"]
          (mkFrame (LStr "state" :: LStr "district" :: LStr "value" :: rest) rs);
   Ok (to_dict_records sel))
  = Ok (to_dict_records (mkFrame ["state"; "district"; "value"] rs)).
Proof.
  intros Hs Hd Hv. unfold getitem_list. cbn [columns rows].
  rewrite (get_indexer_districts rest Hs Hd Hv). cbn.
  unfold to_dict_records. cbn [columns rows]. f_equal.
  rewrite <- list_fmap_compose. apply list_fmap_ext.
  intros i row _. apply dict_zip_take3.
Qed.

(** Distinct required names that are all present need as many columns. *)
Lemma required_columns_fit (names : list string) (cols : list label) :
  NoDup names -> Forall (fun n => LStr n ∈ cols) names ->
  length names <= length cols.
Proof.
  intros Hnd Hall. rewrite <- (length_fmap LStr names).
  apply submseteq_length, NoDup_submseteq.
  - apply NoDup_fmap_2; [|done]. intros x y Hxy. by injection Hxy.
  - intros c Hc. apply list_elem_of_fmap in Hc as (n & -> & Hn).
    by eapply Forall_forall in Hall.
Qed.

Lemma normalize_states_exact (df : DataFrame label) :
  columns df = [LStr "state"; LStr "value"] ->
  normalize_states (Frame df) = Ok (records_as ["state"; "value"] df).
Proof.
  destruct df as [cols rs]. cbn [columns]. intros ->.
  unfold normalize_states, col_in. cbn [columns].
  rewrite !bool_decide_true by set_solver. cbn [negb orb].
  apply (select_states [] rs); set_solver.
Qed.

Lemma normalize_states_positional (df : DataFrame label) :
  ~ (LStr "state" ∈ columns df /\ LStr "value" ∈ columns df) ->
  2 <= length (columns df) ->
  LStr "state" ∉ drop 2 (columns df) -> LStr "value" ∉ drop 2 (columns df) ->
  normalize_states (Frame df) = Ok (records_as ["state"; "value"] df).
Proof.
  destruct df as [cols rs]. cbn [columns]. intros Hmiss Hlen Hs Hv.
  destruct cols as [|c1 [|c2 rest]]; cbn in Hlen; [lia | lia |].
  cbn [drop] in Hs, Hv.
  unfold normalize_states, col_in. cbn [columns].
  assert (negb (bool_decide (LStr "state" ∈ c1 :: c2 :: rest))
          || negb (bool_decide (LStr "value" ∈ c1 :: c2 :: rest)) = true) as ->.
  { do 2 case_bool_decide; try reflexivity. tauto. }
  rewrite bool_decide_true by (cbn; lia).
  unfold set_columns. cbn [columns rows drop fmap list_fmap app].
  rewrite bool_decide_true by reflexivity.
  apply (select_states rest rs Hs Hv).
Qed.

Lemma normalize_states_few (df : DataFrame label) :
  length (columns df) < 2 ->
  normalize_states (Frame df) =
  Raise (BharatVizError
    ("DataFrame must have 'state' and 'value' columns. "
     +:+ "Got: " +:+ py_str_labels (columns df))).
Proof.
  destruct df as [cols rs]. cbn [columns]. intros Hlen.
  unfold normalize_states, col_in. cbn [columns].
  assert (negb (bool_decide (LStr "state" ∈ cols))
          || negb (bool_decide (LStr "value" ∈ cols)) = true) as ->.
  { do 2 case_bool_decide; try reflexivity.
    pose proof (required_columns_fit ["state"; "value"] cols) as Hfit.
    assert (NoDup ["state"; "value"]) as Hnd by compute_done.
    specialize (Hfit Hnd). cbn in Hfit.
    assert (2 <= length cols) by (apply Hfit; repeat constructor; assumption).
    lia. }
  rewrite bool_decide_false by lia. reflexivity.
Qed.

Lemma normalize_districts_exact (df : DataFrame label) :
  columns df = [LStr "state"; LStr "district"; LStr "value"] ->
  normalize_districts (Frame df)
  = Ok (records_as ["state"; "district"; "value"] df).
Proof.
  destruct df as [cols rs]. cbn [columns]. intros ->.
  unfold normalize_districts, col_in. cbn [columns forallb].
  rewrite !bool_decide_true by set_solver. cbn [negb andb].
  apply (select_districts [] rs); set_solver.
Qed.

Lemma normalize_districts_positional (df : DataFrame label) :
  ~ (LStr "state" ∈ columns df /\ LStr "district" ∈ columns df
     /\ LStr "value" ∈ columns df) ->
  3 <= length (columns df) ->
  LStr "state" ∉ drop 3 (columns df) ->
  LStr "district" ∉ drop 3 (columns df) ->
  LStr "value" ∉ drop 3 (columns df) ->
  normalize_districts (Frame df)
  = Ok (records_as ["state"; "district"; "value"] df).
Proof.
  destruct df as [cols rs]. cbn [columns]. intros Hmiss Hlen Hs Hd Hv.
  destruct cols as [|c1 [|c2 [|c3 rest]]]; cbn in Hlen; [lia | lia | lia |].
  cbn [drop] in Hs, Hd, Hv.
  unfold normalize_districts, col_in. cbn [columns forallb].
  assert (negb (bool_decide (LStr "state" ∈ c1 :: c2 :: c3 :: rest)
                && (bool_decide (LStr "district" ∈ c1 :: c2 :: c3 :: rest)
                    && (bool_decide (LStr "value" ∈ c1 :: c2 :: c3 :: rest)
                        && true))) = true) as ->.
  { do 3 case_bool_decide; try reflexivity. tauto. }
  rewrite bool_decide_true by (cbn; lia).
  unfold set_columns. cbn [columns rows drop fmap list_fmap app].
  rewrite bool_decide_true by reflexivity.
  apply (select_districts rest rs Hs Hd Hv).
Qed.

Lemma normalize_districts_few (df : DataFrame label) :
  length (columns df) < 3 ->
  normalize_districts (Frame df) =
  Raise (BharatVizError
    ("DataFrame must have 'state', 'district' and 'value' columns. "
     +:+ "Got: " +:+ py_str_labels (columns df))).
Proof.
  destruct df as [cols rs]. cbn [columns]. intros Hlen.
  unfold normalize_districts, col_in. cbn [columns forallb].
  assert (negb (bool_decide (LStr "state" ∈ cols)
                && (bool_decide (LStr "district" ∈ cols)
                    && (bool_decide (LStr "value" ∈ cols) && true))) = true)
    as ->.
  { do 3 case_bool_decide; try reflexivity.
    pose proof (required_columns_fit ["state"; "district"; "value"] cols)
      as Hfit.
    assert (NoDup ["state"; "district"; "value"]) as Hnd
      by compute_done.
    specialize (Hfit Hnd). cbn in Hfit.
    assert (3 <= length cols) by (apply Hfit; repeat constructor; assumption).
    lia. }
  rewrite bool_decide_false by lia. reflexivity.
Qed.

Lemma normalize_states_outcome (data : table) :
  (exists recs, normalize_states data = Ok recs) \/
  (exists msg, normalize_states data = Raise (BharatVizError msg)).
Proof.
  destruct data as [l | [cols rs]]; [left; by eexists|].
  unfold normalize_states, col_in. cbn [columns].
  assert (forall df' : DataFrame label,
            LStr "state" ∈ columns df' -> LStr "value" ∈ columns df' ->
            exists recs,
              (sel ← getitem_list ["state"; "value"] df';
               Ok (to_dict_records sel)) = Ok recs) as Hsel.
  { intros df' Hs Hv.
    destruct (getitem_list_present ["state"; "value"] df') as [sel ->];
      [repeat constructor; assumption | by eexists]. }
  do 2 case_bool_decide; cbn [negb orb].
  1: left; by apply (Hsel (mkFrame cols rs)).
  all: case_bool_decide as Hlen; [left | right; by eexists].
  all: unfold set_columns; cbn [columns rows];
    rewrite bool_decide_true
      by (rewrite length_app, length_fmap, length_drop; cbn; lia);
    apply Hsel; cbn; set_solver.
Qed.

Lemma normalize_districts_outcome (data : table) :
  (exists recs, normalize_districts data = Ok recs) \/
  (exists msg, normalize_districts data = Raise (BharatVizError msg)).
Proof.
  destruct data as [l | [cols rs]]; [left; by eexists|].
  unfold normalize_districts, col_in. cbn [columns forallb].
  assert (forall df' : DataFrame label,
            LStr "state" ∈ columns df' -> LStr "district" ∈ columns df' ->
            LStr "value" ∈ columns df' ->
            exists recs,
              (sel ← getitem_list ["state"; "district"; "value"] df';
               Ok (to_dict_records sel)) = Ok recs) as Hsel.
  { intros df' Hs Hd Hv.
    destruct (getitem_list_present ["state"; "district"; "value"] df')
      as [sel ->]; [repeat constructor; assumption | by eexists]. }
  do 3 case_bool_decide; cbn [negb andb].
  1: left; by apply (Hsel (mkFrame cols rs)).
  all: case_bool_decide as Hlen; [left | right; by eexists].
  all: unfold set_columns; cbn [columns rows];
    rewrite bool_decide_true
      by (rewrite length_app, length_fmap, length_drop; cbn; lia);
    apply Hsel; cbn; set_solver.
Qed.

(** ** The request body *)

Lemma build_states_of_records (data : table) (recs : list record)
    (a : States.args) :
  normalize_states data = Ok recs ->
  build_states_request data a = build_states_request (Rows recs) a.
Proof. intros H. unfold build_states_request. by rewrite H. Qed.

Lemma build_districts_of_records (data : table) (recs : list record)
    (a : Districts.args) :
  normalize_districts data = Ok recs ->
  build_districts_request data a = build_districts_request (Rows recs) a.
Proof. intros H. unfold build_districts_request. by rewrite H. Qed.

Lemma build_states_accepts (recs : list record) (a : States.args) :
  recs <> [] -> States.color_scale a ∈ COLOR_SCALES ->
  exists body,
    build_states_request (Rows recs) a = Ok body /\
    body_records body = Some recs.
Proof.
  intros Hne Hscale. unfold build_states_request. cbn.
  destruct recs as [|r l]; [done|].
  rewrite bool_decide_false by (cbn; lia).
  rewrite (bool_decide_true _ Hscale). cbn.
  eexists. split; [reflexivity|].
  unfold body_records. rewrite lookup_insert_eq.
  apply (mapM_PDict (r :: l)).
Qed.

Lemma build_districts_accepts (recs : list record) (a : Districts.args) :
  recs <> [] -> Districts.color_scale a ∈ COLOR_SCALES ->
  Districts.map_type a ∈ valid_map_types ->
  exists body,
    build_districts_request (Rows recs) a = Ok body /\
    body_records body = Some recs.
Proof.
  intros Hne Hscale Htype. unfold build_districts_request. cbn.
  destruct recs as [|r l]; [done|].
  rewrite bool_decide_false by (cbn; lia).
  rewrite (bool_decide_true _ Hscale), (bool_decide_true _ Htype). cbn.
  eexists. split; [reflexivity|].
  unfold body_records. rewrite lookup_insert_eq.
  apply (mapM_PDict (r :: l)).
Qed.

Lemma build_states_rejects (data : table) (a : States.args) :
  normalize_states data = Ok [] \/ States.color_scale a ∉ COLOR_SCALES ->
  exists msg, build_states_request data a = Raise (BharatVizError msg).
Proof.
  intros Hbad. unfold build_states_request.
  destruct (normalize_states_outcome data) as [[recs Hn] | [msg Hn]];
    rewrite Hn; cbn; [|by eexists].
  case_bool_decide as Hlen; [by eexists|].
  destruct Hbad as [Hempty | Hscale].
  - rewrite Hn in Hempty. injection Hempty as ->. done.
  - rewrite (bool_decide_false _ Hscale). by eexists.
Qed.

Lemma build_districts_rejects (data : table) (a : Districts.args) :
  normalize_districts data = Ok [] \/
  Districts.color_scale a ∉ COLOR_SCALES \/
  Districts.map_type a ∉ valid_map_types ->
  exists msg, build_districts_request data a = Raise (BharatVizError msg).
Proof.
  intros Hbad. unfold build_districts_request.
  destruct (normalize_districts_outcome data) as [[recs Hn] | [msg Hn]];
    rewrite Hn; cbn; [|by eexists].
  case_bool_decide as Hlen; [by eexists|].
  case_bool_decide as Hscale; cbn [negb]; [|by eexists].
  case_bool_decide as Htype; cbn [negb]; [|by eexists].
  destruct Hbad as [Hempty | [? | ?]]; [|done|done].
  rewrite Hn in Hempty. injection Hempty as ->. done.
Qed.

(** A build fails with the module's own error or not at all. *)
Lemma build_states_outcome (data : table) (a : States.args) :
  (exists body, build_states_request data a = Ok body) \/
  (exists msg, build_states_request data a = Raise (BharatVizError msg)).
Proof.
  unfold build_states_request.
  destruct (normalize_states_outcome data) as [[recs Hn] | [msg Hn]];
    rewrite Hn; cbn; [|right; by eexists].
  repeat case_bool_decide; cbn [negb]; first [left; by eexists | right; by eexists].
Qed.

Lemma build_districts_outcome (data : table) (a : Districts.args) :
  (exists body, build_districts_request data a = Ok body) \/
  (exists msg, build_districts_request data a = Raise (BharatVizError msg)).
Proof.
  unfold build_districts_request.
  destruct (normalize_districts_outcome data) as [[recs Hn] | [msg Hn]];
    rewrite Hn; cbn; [|right; by eexists].
  repeat case_bool_decide; cbn [negb]; first [left; by eexists | right; by eexists].
Qed.

(** ** The calls, step by step *)

Section Calls.
Context (rt : Runtime).

Lemma generate_map_run (data : table) (a : States.args) (w : World) :
  generate_map rt data a w =
  match build_states_request data a with
  | Raise e => (Raise e, w)
  | Ok body =>
      let call := mkCall (states_endpoint (this w)) body 30 in
      match server rt (posts w) call with
      | RequestException e =>
          (Raise (BharatVizError ("API request failed: " +:+ e)),
           after_post w call)
      | InvalidJson =>
          (Raise (BharatVizError "Invalid JSON response from API"),
           after_post w call)
      | JsonBody result =>
          decode rt "✅ Map saved to: " (States.title a) (States.show a)
            (States.save_path a) (States.return_all a) (States.figsize a)
            result (after_post w call)
      end
  end.
Proof.
  unfold generate_map. rewrite run_bind. unfold lift at 1.
  destruct (build_states_request data a) as [body|e]; [|reflexivity].
  rewrite run_bind. cbn [get_this]. rewrite run_bind. cbn [requests_post].
  destruct (server rt (posts w) _); reflexivity.
Qed.

Lemma generate_districts_map_run (data : table) (a : Districts.args)
    (w : World) :
  generate_districts_map rt data a w =
  match build_districts_request data a with
  | Raise e => (Raise e, w)
  | Ok body =>
      let call := mkCall (districts_endpoint (this w)) body 60 in
      match server rt (posts w) call with
      | RequestException e =>
          (Raise (BharatVizError ("API request failed: " +:+ e)),
           after_post w call)
      | InvalidJson =>
          (Raise (BharatVizError "Invalid JSON response from API"),
           after_post w call)
      | JsonBody result =>
          decode rt "✅ Districts map saved to: " (Districts.title a)
            (Districts.show a) (Districts.save_path a)
            (Districts.return_all a) (Districts.figsize a) result
            (after_post w call)
      end
  end.
Proof.
  unfold generate_districts_map. rewrite run_bind. unfold lift at 1.
  destruct (build_districts_request data a) as [body|e]; [|reflexivity].
  rewrite run_bind. cbn [get_this]. rewrite run_bind. cbn [requests_post].
  destruct (server rt (posts w) _); reflexivity.
Qed.

Lemma decode_frame saved_line title show save_path return_all figsize result w :
  same_client_and_posts w
    (decode rt saved_line title show save_path return_all figsize result w).2.
Proof.
  unfold same_client_and_posts, decode, present, Image_save, write_file,
    print, plt_show.
  unfold mbind, M_bind, mret, M_ret, lift, raise.
  repeat case_match; simplify_eq/=; auto.
Qed.

Lemma generate_map_frame (data : table) (a : States.args) (w : World) :
  this (generate_map rt data a w).2 = this w /\
  posts (generate_map rt data a w).2 =
  posts w ++ match build_states_request data a with
             | Ok body => [mkCall (states_endpoint (this w)) body 30]
             | Raise _ => []
             end.
Proof.
  rewrite generate_map_run.
  destruct (build_states_request data a) as [body|e]; cbn [snd];
    [|by rewrite app_nil_r].
  cbv zeta. destruct (server rt (posts w) _) as [e| |result]; [done..|].
  by destruct (decode_frame "✅ Map saved to: " (States.title a)
    (States.show a) (States.save_path a) (States.return_all a)
    (States.figsize a) result
    (after_post w (mkCall (states_endpoint (this w)) body 30))) as [-> ->].
Qed.

Lemma generate_districts_map_frame (data : table) (a : Districts.args)
    (w : World) :
  this (generate_districts_map rt data a w).2 = this w /\
  posts (generate_districts_map rt data a w).2 =
  posts w ++ match build_districts_request data a with
             | Ok body => [mkCall (districts_endpoint (this w)) body 60]
             | Raise _ => []
             end.
Proof.
  rewrite generate_districts_map_run.
  destruct (build_districts_request data a) as [body|e]; cbn [snd];
    [|by rewrite app_nil_r].
  cbv zeta. destruct (server rt (posts w) _) as [e| |result]; [done..|].
  by destruct (decode_frame "✅ Districts map saved to: " (Districts.title a)
    (Districts.show a) (Districts.save_path a) (Districts.return_all a)
    (Districts.figsize a) result
    (after_post w (mkCall (districts_endpoint (this w)) body 60))) as [-> ->].
Qed.

(** C1, as amended.  For a non-empty list of records and a colour scale of
    the allow-list, [generate_map] posts a body whose [data] field is the
    input list itself: as many records as the input and, record by record,
    the keys of the input; they are only [state] and [value] when the input
    has no other key. *)
Theorem generate_map_rows_body (l : list record) (a : States.args) (w : World) :
  l <> [] -> States.color_scale a ∈ COLOR_SCALES ->
  exists body recs,
    build_states_request (Rows l) a = Ok body /\
    issued_by w (generate_map rt (Rows l) a w).2
      = [mkCall (states_endpoint (this w)) body 30] /\
    body_records body = Some recs /\
    recs = l /\
    length recs = length l /\
    (Forall (fun r : record => dom r ⊆ state_keys) l ->
     Forall (fun r : record => dom r ⊆ state_keys) recs).
Proof.
  intros Hne Hscale.
  destruct (build_states_accepts l a Hne Hscale) as (body & Hbuild & Hrecs).
  exists body, l. split; [done|]. split; [|done].
  unfold issued_by.
  destruct (generate_map_frame (Rows l) a w) as [_ ->].
  rewrite Hbuild. by rewrite drop_app_length.
Qed.

(** C3.  A call whose normalised records are empty, whose colour scale is
    outside the allow-list or, for districts, whose map type is not one of
    the three recognised, fails with [BharatVizError] and leaves the world
    as it was: no post has been sent. *)
Theorem invalid_request_rejected_before_post
    (sdata : table) (sa : States.args) (ddata : table) (da : Districts.args)
    (w : World) :
  normalize_states sdata = Ok [] \/ States.color_scale sa ∉ COLOR_SCALES ->
  normalize_districts ddata = Ok [] \/
  Districts.color_scale da ∉ COLOR_SCALES \/
  Districts.map_type da ∉ valid_map_types ->
  (exists msg, generate_map rt sdata sa w = (Raise (BharatVizError msg), w)) /\
  (exists msg,
     generate_districts_map rt ddata da w = (Raise (BharatVizError msg), w)) /\
  issued_by w (generate_map rt sdata sa w).2 = [] /\
  issued_by w (generate_districts_map rt ddata da w).2 = [].
Proof.
  intros Hs Hd.
  destruct (build_states_rejects sdata sa Hs) as [smsg Hsb].
  destruct (build_districts_rejects ddata da Hd) as [dmsg Hdb].
  rewrite generate_map_run, generate_districts_map_run, Hsb, Hdb.
  unfold issued_by. cbn [snd]. rewrite drop_all.
  repeat split; by eexists.
Qed.

(** C8.  The posts a states call sends are at most one, to the states
    endpoint with a timeout of 30 seconds; those of a districts call at most
    one, to the districts endpoint with a timeout of 60 seconds; each sends
    exactly one when its request passes validation, and 30 is below 60. *)
Theorem post_timeouts
    (sdata : table) (sa : States.args) (ddata : table) (da : Districts.args)
    (w : World) :
  issued_by w (generate_map rt sdata sa w).2 =
    match build_states_request sdata sa with
    | Ok body => [mkCall (states_endpoint (this w)) body 30]
    | Raise _ => []
    end /\
  issued_by w (generate_districts_map rt ddata da w).2 =
    match build_districts_request ddata da with
    | Ok body => [mkCall (districts_endpoint (this w)) body 60]
    | Raise _ => []
    end /\
  Forall (fun c => timeout c = 30%Z)
    (issued_by w (generate_map rt sdata sa w).2) /\
  Forall (fun c => timeout c = 60%Z)
    (issued_by w (generate_districts_map rt ddata da w).2) /\
  (30 < 60)%Z.
Proof.
  unfold issued_by.
  destruct (generate_map_frame sdata sa w) as [_ ->].
  destruct (generate_districts_map_frame ddata da w) as [_ ->].
  rewrite !drop_app_length.
  repeat split; try lia.
  - destruct (build_states_request sdata sa); repeat constructor.
  - destruct (build_districts_request ddata da); repeat constructor.
Qed.


(** ** The decode step *)

Lemma first_png_skip (pre rest : list pyval) :
  Forall other_export pre -> first_png (pre ++ rest) = first_png rest.
Proof.
  induction 1 as [|e pre (d & f & -> & Hf & Hne) _ IH]; [reflexivity|].
  cbn. rewrite Hf. cbn. by rewrite Hne.
Qed.

Lemma first_png_none (es : list pyval) :
  Forall other_export es -> first_png es = Ok None.
Proof.
  intros H. rewrite <- (app_nil_r es). by rewrite first_png_skip.
Qed.

Lemma first_png_found (pre post : list pyval) (png payload : pyval) :
  Forall other_export pre -> export_of "png" payload png ->
  first_png (pre ++ png :: post) = Ok (Some png).
Proof.
  intros Hpre (d & -> & Hf & _). rewrite first_png_skip by done.
  cbn. by rewrite Hf.
Qed.

Lemma export_truthy (format : string) (payload v : pyval) :
  export_of format payload v -> py_truthy v = true.
Proof.
  intros (d & -> & Hf & _). cbn. rewrite bool_decide_false; [done|].
  intros Hsize. apply map_size_empty_inv in Hsize. subst d.
  by rewrite lookup_empty in Hf.
Qed.

Lemma run_lift {A B} (r : Result A) (k : A -> M B) (w : World) :
  (lift r ≫= k) w =
  match r with
  | Ok a => k a w
  | Raise e => (Raise e, w)
  end.
Proof. by destruct r. Qed.

Lemma py_get_some (d : gmap string pyval) (key : string) (dflt v : pyval) :
  d !! key = Some v -> py_get (PDict d) key dflt = Ok v.
Proof. intros H. cbn. by rewrite H. Qed.

Lemma py_getitem_some (d : gmap string pyval) (key : string) (v : pyval) :
  d !! key = Some v -> py_getitem (PDict d) key = Ok v.
Proof. intros H. cbn. by rewrite H. Qed.

Lemma py_getitem_none (d : gmap string pyval) (key : string) :
  d !! key = None -> py_getitem (PDict d) key = Raise (KeyError key).
Proof. intros H. cbn. by rewrite H. Qed.

(** Nothing to save and nothing to show: the world stays as it is. *)
Lemma present_idle saved_line title save_path figsize image (w : World) :
  path_given save_path = None ->
  present rt saved_line title false save_path figsize image w = (Ok tt, w).
Proof. intros H. unfold present. by rewrite H. Qed.

(** A successful body with a PNG export: the decode step reaches the image
    built from the decoded payload. *)
Lemma decode_reaches_image saved_line title show save_path return_all figsize
    (d : gmap string pyval) (pre post : list pyval) (png payload : pyval)
    (raw : bytes) (w : World) :
  d !! "success" = Some (PBool true) ->
  d !! "exports" = Some (PList (pre ++ png :: post)) ->
  Forall other_export pre -> export_of "png" payload png ->
  b64decode payload = Ok raw ->
  PIL_AVAILABLE rt = true -> Image_identify rt raw = true ->
  decode rt saved_line title show save_path return_all figsize (PDict d) w
  = (_ ← present rt saved_line title show save_path figsize (mkImage raw);
     if return_all then
       metadata ← lift (py_getitem (PDict d) "metadata");
       mret (AllExports (mkImage raw) (PList (pre ++ png :: post)) metadata)
     else mret (ImageOnly (mkImage raw))) w.
Proof.
  intros Hsucc Hexp Hpre Hpng Hb64 Hpil Hident.
  unfold decode.
  rewrite run_lift, (py_get_some _ _ _ _ Hsucc). cbn [py_truthy negb].
  rewrite run_lift, (py_getitem_some _ _ _ Hexp).
  rewrite run_lift. cbn [py_iter].
  rewrite run_lift, (first_png_found pre post png payload Hpre Hpng).
  rewrite (export_truthy _ _ _ Hpng), Hpil. cbn [negb].
  destruct Hpng as (pd & -> & Hfmt & Hdata).
  rewrite run_lift, (py_getitem_some _ _ _ Hdata).
  rewrite run_lift, Hb64.
  rewrite run_lift. unfold Image_open. rewrite Hident.
  reflexivity.
Qed.

(** C4, as amended.  A body with [success] true, well-formed exports and a
    PNG export whose payload decodes to [raw]: with PIL present and taking
    [raw] for an image, and the save and display steps, as far as they were
    asked for, going through, the decode step returns the image PIL opened
    from exactly [raw]; with [return_all] and a [metadata] field in the body
    it returns beside it the [exports] list and that field, both as
    received. *)
Theorem decode_png_round_trip saved_line title show save_path return_all figsize
    (d : gmap string pyval) (pre post : list pyval)
    (png payload metadata : pyval) (raw : bytes) (w w' : World) :
  d !! "success" = Some (PBool true) ->
  d !! "exports" = Some (PList (pre ++ png :: post)) ->
  Forall other_export pre -> export_of "png" payload png ->
  b64decode payload = Ok raw ->
  PIL_AVAILABLE rt = true -> Image_identify rt raw = true ->
  present rt saved_line title show save_path figsize (mkImage raw) w
  = (Ok tt, w') ->
  (return_all = true -> d !! "metadata" = Some metadata) ->
  exists image out,
    Image_open rt raw = Ok image /\
    decode rt saved_line title show save_path return_all figsize (PDict d) w
    = (Ok out, w') /\
    out = (if return_all
           then AllExports image (PList (pre ++ png :: post)) metadata
           else ImageOnly image) /\
    (return_all = true ->
     output_getitem out "metadata" = Ok metadata /\
     output_getitem out "exports" = Ok (PList (pre ++ png :: post))).
Proof.
  intros Hsucc Hexp Hpre Hpng Hb64 Hpil Hident Hpresent Hmeta.
  exists (mkImage raw).
  rewrite (decode_reaches_image _ _ _ _ _ _ d pre post png payload raw w)
    by assumption.
  rewrite run_bind, Hpresent. unfold Image_open. rewrite Hident.
  destruct return_all.
  - rewrite run_lift, (py_getitem_some _ _ _ (Hmeta eq_refl)).
    eexists. do 3 (split; [reflexivity|]). intros _. split; reflexivity.
  - eexists. do 3 (split; [reflexivity|]). discriminate.
Qed.

Lemma decode_without_png saved_line title show save_path return_all figsize
    (d : gmap string pyval) (success : pyval) (es : list pyval) (w : World) :
  d !! "success" = Some success -> py_truthy success = true ->
  d !! "exports" = Some (PList es) -> Forall other_export es ->
  decode rt saved_line title show save_path return_all figsize (PDict d) w
  = (Raise (BharatVizError "PNG export not found in response"), w).
Proof.
  intros Hsucc Htrue Hexp Hes. unfold decode.
  rewrite run_lift, (py_get_some _ _ _ _ Hsucc), Htrue. cbn [negb].
  rewrite run_lift, (py_getitem_some _ _ _ Hexp).
  rewrite run_lift. cbn [py_iter].
  rewrite run_lift, (first_png_none es Hes). reflexivity.
Qed.

Lemma decode_server_failure saved_line title show save_path return_all figsize
    (d e : gmap string pyval) (m : string) (w : World) :
  d !! "success" = Some (PBool false) ->
  d !! "error" = Some (PDict e) -> e !! "message" = Some (PStr m) ->
  decode rt saved_line title show save_path return_all figsize (PDict d) w
  = (Raise (BharatVizError ("API error: " +:+ m)), w).
Proof.
  intros Hsucc Herr Hmsg. unfold decode.
  rewrite run_lift, (py_get_some _ _ _ _ Hsucc). cbn [py_truthy negb].
  rewrite run_lift, (py_get_some _ _ _ _ Herr).
  rewrite run_lift, (py_get_some _ _ _ _ Hmsg). reflexivity.
Qed.

(** What a states call returns once the request is built and the service has
    answered with a parsed body. *)
Lemma generate_map_answered (data : table) (a : States.args) (w : World)
    (body result : pyval) :
  build_states_request data a = Ok body ->
  server rt (posts w) (mkCall (states_endpoint (this w)) body 30)
  = JsonBody result ->
  generate_map rt data a w =
  decode rt "✅ Map saved to: " (States.title a) (States.show a)
    (States.save_path a) (States.return_all a) (States.figsize a) result
    (after_post w (mkCall (states_endpoint (this w)) body 30)).
Proof. intros Hb Hs. rewrite generate_map_run, Hb. cbv zeta. by rewrite Hs. Qed.

Lemma generate_districts_map_answered (data : table) (a : Districts.args)
    (w : World) (body result : pyval) :
  build_districts_request data a = Ok body ->
  server rt (posts w) (mkCall (districts_endpoint (this w)) body 60)
  = JsonBody result ->
  generate_districts_map rt data a w =
  decode rt "✅ Districts map saved to: " (Districts.title a)
    (Districts.show a) (Districts.save_path a) (Districts.return_all a)
    (Districts.figsize a) result
    (after_post w (mkCall (districts_endpoint (this w)) body 60)).
Proof.
  intros Hb Hs. rewrite generate_districts_map_run, Hb. cbv zeta. by rewrite Hs.
Qed.

(** C5.  A successful body whose exports, all well-formed, include none of
    format [png] makes the decode step fail with [BharatVizError], whatever
    the arguments of the call, the requested formats among them; so do
    [generate_map], [generate_districts_map] and [get_metadata], which asks
    for SVG only, when the service answers a valid request with it. *)
Theorem missing_png_is_an_error
    (d : gmap string pyval) (es : list pyval)
    (data : table) (recs : list record)
    (ddata : table) (drecs : list record) (w : World) :
  d !! "success" = Some (PBool true) ->
  d !! "exports" = Some (PList es) -> Forall other_export es ->
  (forall call, server rt (posts w) call = JsonBody (PDict d)) ->
  normalize_states data = Ok recs -> recs <> [] ->
  normalize_districts ddata = Ok drecs -> drecs <> [] ->
  let failure := BharatVizError "PNG export not found in response" in
  (forall saved_line title show save_path return_all figsize w1,
     decode rt saved_line title show save_path return_all figsize (PDict d) w1
     = (Raise failure, w1)) /\
  (forall a, States.color_scale a ∈ COLOR_SCALES ->
     (generate_map rt data a w).1 = Raise failure) /\
  (forall a, Districts.color_scale a ∈ COLOR_SCALES ->
     Districts.map_type a ∈ valid_map_types ->
     (generate_districts_map rt ddata a w).1 = Raise failure) /\
  (get_metadata rt data w).1 = Raise failure.
Proof.
  intros Hsucc Hexp Hes Hserver Hn Hne Hdn Hdne failure.
  assert (forall saved_line title show save_path return_all figsize w1,
     decode rt saved_line title show save_path return_all figsize (PDict d) w1
     = (Raise failure, w1)) as Hdecode.
  { intros. by eapply decode_without_png. }
  assert (forall a, States.color_scale a ∈ COLOR_SCALES ->
     (generate_map rt data a w).1 = Raise failure) as Hmap.
  { intros a Hscale.
    destruct (build_states_accepts recs a Hne Hscale) as (body & Hb & _).
    rewrite <- (build_states_of_records data recs a Hn) in Hb.
    rewrite (generate_map_answered data a w body (PDict d) Hb (Hserver _)).
    by rewrite Hdecode. }
  split; [exact Hdecode|]. split; [exact Hmap|]. split.
  - intros a Hscale Htype.
    destruct (build_districts_accepts drecs a Hdne Hscale Htype)
      as (body & Hb & _).
    rewrite <- (build_districts_of_records ddata drecs a Hdn) in Hb.
    rewrite (generate_districts_map_answered ddata a w body (PDict d) Hb
               (Hserver _)).
    by rewrite Hdecode.
  - unfold get_metadata. cbv zeta. rewrite run_bind.
    match goal with
    | |- context [generate_map rt data ?a w] =>
        pose proof (Hmap a ltac:(compute_done)) as Hrun;
        destruct (generate_map rt data a w) as [[out|e] w']
    end; cbn [fst] in *; [discriminate Hrun|].
    injection Hrun as ->. reflexivity.
Qed.

(** C6.  When the service answers a valid request with [success] false and
    an error object carrying a message, the call fails with a
    [BharatVizError] whose text is "API error: " followed by that message,
    which it therefore contains verbatim. *)
Theorem server_failure_message_propagates
    (d e : gmap string pyval) (m : string)
    (data : table) (a : States.args) (body : pyval)
    (ddata : table) (da : Districts.args) (dbody : pyval) (w : World) :
  d !! "success" = Some (PBool false) ->
  d !! "error" = Some (PDict e) -> e !! "message" = Some (PStr m) ->
  (forall call, server rt (posts w) call = JsonBody (PDict d)) ->
  build_states_request data a = Ok body ->
  build_districts_request ddata da = Ok dbody ->
  exists msg,
    (generate_map rt data a w).1 = Raise (BharatVizError msg) /\
    (generate_districts_map rt ddata da w).1 = Raise (BharatVizError msg) /\
    msg = "API error: " +:+ m /\
    contains msg m.
Proof.
  intros Hsucc Herr Hmsg Hserver Hb Hdb.
  exists ("API error: " +:+ m).
  rewrite (generate_map_answered data a w body (PDict d) Hb (Hserver _)).
  rewrite (generate_districts_map_answered ddata da w dbody (PDict d) Hdb
             (Hserver _)).
  rewrite !(decode_server_failure _ _ _ _ _ _ d e m) by assumption.
  repeat split. apply contains_app_r, contains_refl.
Qed.

(** ** Saving every format *)




Lemma save_one_export (basename format : string) (payload export : pyval)
    (content : bytes) (rest : list pyval) (w : World) :
  export_of format payload export -> b64decode payload = Ok content ->
  writable rt (basename +:+ "." +:+ format) = true ->
  stdout_encodes rt (saved_report (basename +:+ "." +:+ format) content)
  = true ->
  save_exports rt basename (export :: rest) w =
  save_exports rt basename rest
    (mkWorld (this w) (posts w)
       (<[basename +:+ "." +:+ format := content]> (files w))
       (stdout w ++ [saved_report (basename +:+ "." +:+ format) content])
       (shown w)).
Proof.
  intros (d & -> & Hf & Hd) Hb64 Hw Hout. cbn [save_exports].
  rewrite run_lift, (py_getitem_some _ _ _ Hf). cbn [py_str].
  rewrite run_lift, (py_getitem_some _ _ _ Hd).
  rewrite run_lift, Hb64.
  rewrite run_bind. unfold write_file. rewrite Hw.
  rewrite run_bind. unfold print at 1. unfold saved_report in Hout.
  cbn [files this posts stdout shown]. by rewrite Hout.
Qed.


(** ** The client object *)

Lemma rstrip_app_char (c : ascii) (s : string) :
  rstrip c (s +:+ String c "") = rstrip c s.
Proof.
  induction s as [|a s IH].
  - change (rstrip c (String c "") = "").
    cbn [rstrip]. by rewrite Ascii.eqb_refl.
  - change (String a s +:+ String c "") with (String a (s +:+ String c "")).
    cbn [rstrip]. by rewrite IH.
Qed.

Lemma rstrip_no_trailing (c : ascii) (s pre : string) :
  rstrip c s <> pre +:+ String c "".
Proof.
  revert pre. induction s as [|a s IH]; intros pre.
  - by destruct pre.
  - cbn [rstrip]. destruct (rstrip c s) as [|x r] eqn:Hr.
    + destruct (Ascii.eqb a c) eqn:Hac; [by destruct pre|].
      destruct pre as [|y pre]; cbn.
      * intros [= ->]. by rewrite Ascii.eqb_refl in Hac.
      * intros [= _ Hpre]. by destruct pre.
    + destruct pre as [|y pre]; [done|].
      change (String y pre +:+ String c "")
        with (String y (pre +:+ String c "")).
      intros [= _ Hx]. by apply (IH pre).
Qed.

Lemma rstrip_spec (c : ascii) (s : string) :
  exists k, s = rstrip c s +:+ repeat_char c k.
Proof.
  induction s as [|a s [k IH]]; [by exists 0|].
  cbn [rstrip]. destruct (rstrip c s) as [|x r] eqn:Hr.
  - destruct (Ascii.eqb_spec a c) as [->|Hne].
    + exists (S k). cbn. by rewrite IH at 1.
    + exists k. change (String a s = String a ("" +:+ repeat_char c k)).
      by rewrite IH at 1.
  - exists k.
    change (String a s = String a (String x r +:+ repeat_char c k)).
    by rewrite IH at 1.
Qed.

Lemma save_exports_frame (basename : string) (es : list pyval) (w : World) :
  same_client_and_posts w (save_exports rt basename es w).2.
Proof.
  revert w. induction es as [|e es IH]; intros w; [done|].
  cbn [save_exports]. unfold write_file, print.
  unfold mbind, M_bind, mret, M_ret, lift, raise.
  repeat case_match; simplify_eq/=; try done.
  match goal with
  | |- same_client_and_posts _ (save_exports rt basename es ?w1).2 =>
      destruct (IH w1) as [Ht Hp]; split; [by rewrite Ht | by rewrite Hp]
  end.
Qed.

Lemma get_metadata_frame (data : table) (w : World) :
  this (get_metadata rt data w).2 = this w.
Proof.
  unfold get_metadata. cbv zeta. rewrite run_bind.
  match goal with
  | |- context [generate_map rt data ?a w] =>
      pose proof (proj1 (generate_map_frame data a w)) as Hthis;
      destruct (generate_map rt data a w) as [[out|e] w']
  end; cbn [snd] in *; [|done].
  unfold lift. by destruct (output_getitem out "metadata").
Qed.

Lemma save_all_formats_frame (data : table) (basename map_type : string)
    (kw : kwargs) (w : World) :
  this (save_all_formats rt data basename map_type kw w).2 = this w.
Proof.
  unfold save_all_formats. rewrite run_bind.
  match goal with
  | |- context [match ?call w with _ => _ end] =>
      assert (this (call w).2 = this w) as Hthis;
      [|destruct (call w) as [[out|e] w']]
  end.
  - destruct (String.eqb map_type "districts"); rewrite run_lift.
    + destruct (bind_districts_args _ kw) as [args|e]; [|done].
      apply generate_districts_map_frame.
    + destruct (bind_states_args _ kw) as [args|e]; [|done].
      apply generate_map_frame.
  - cbn [snd] in Hthis. rewrite run_lift.
    destruct (output_getitem out "exports") as [exports|e]; [|done].
    rewrite run_lift. destruct (py_iter exports) as [es|e]; [|done].
    destruct (save_exports_frame basename es w') as [-> _]. done.
  - done.
Qed.

(** C10.  After [BharatViz(api_url)] the client's address is [api_url]
    without its trailing slashes, which is where [api_url] differs from it
    at all, and the two endpoints are that address followed by the two
    fixed paths; since the address does not end with a slash, no slash
    doubles at the join, and one more trailing slash on [api_url] builds the
    same client.  No method changes the client object afterwards. *)
Theorem endpoints_fixed_at_construction (url : string) (w : World) :
  let self := this (__init__ url w).2 in
  api_url self = rstrip "/" url /\
  states_endpoint self = rstrip "/" url +:+ "/api/v1/states/map" /\
  districts_endpoint self = rstrip "/" url +:+ "/api/v1/districts/map" /\
  (exists k, url = rstrip "/" url +:+ repeat_char "/" k) /\
  (forall pre, rstrip "/" url <> pre +:+ "/") /\
  __init__ (url +:+ "/") w = __init__ url w /\
  (forall data a w0, this (generate_map rt data a w0).2 = this w0) /\
  (forall data a w0, this (generate_districts_map rt data a w0).2 = this w0) /\
  (forall data w0, this (get_metadata rt data w0).2 = this w0) /\
  (forall data basename map_type kw w0,
     this (save_all_formats rt data basename map_type kw w0).2 = this w0).
Proof.
  cbv zeta. do 3 (split; [reflexivity|]).
  split; [apply rstrip_spec|].
  split; [intros pre; apply rstrip_no_trailing|].
  split; [unfold __init__; by rewrite rstrip_app_char|].
  split; [intros; apply generate_map_frame|].
  split; [intros; apply generate_districts_map_frame|].
  split; [intros; apply get_metadata_frame|].
  intros; apply save_all_formats_frame.
Qed.
End Calls.

(** ** Column-oriented input *)

Lemma few_columns_named (prefix : string) (cols : list label) (c : label) :
  c ∈ cols ->
  contains (prefix +:+ "Got: " +:+ py_str_labels cols) (py_repr_label c).
Proof.
  intros Hc. do 2 apply contains_app_r. unfold py_str_labels.
  apply contains_app_r, contains_app_l, contains_join.
  apply list_elem_of_fmap. by exists c.
Qed.

Lemma records_as_length (names : list string) (df : DataFrame label) :
  length (records_as names df) = length (rows df).
Proof. unfold records_as, to_dict_records. cbn. by rewrite length_fmap. Qed.

Lemma records_as_nonempty (names : list string) (df : DataFrame label) :
  rows df <> [] -> records_as names df <> [].
Proof.
  intros Hrows Hrecs. apply Hrows, length_zero_iff_nil.
  by rewrite <- (records_as_length names df), Hrecs.
Qed.

(** C2, as amended.  A frame whose columns are exactly the required names
    is normalised to its row-oriented reading, and the request built from
    either is the same.  A frame that lacks a required name but has at least
    as many columns as names, none of the later columns carrying a required
    name already, is normalised to the reading of its first columns under
    the required names, and the build succeeds when it has a row and the
    colour scale (and map type) is valid.  A frame with fewer columns fails
    with a [BharatVizError] whose text contains the [repr] of every column
    it has. *)
Theorem columnar_input_normalised
    (df : DataFrame label) (a : States.args) (da : Districts.args) :
  let names := ["state"; "value"] in
  let dnames := ["state"; "district"; "value"] in
  (columns df = LStr <$> names ->
     normalize_states (Frame df) = Ok (records_as names df) /\
     build_states_request (Frame df) a
     = build_states_request (Rows (records_as names df)) a) /\
  (columns df = LStr <$> dnames ->
     normalize_districts (Frame df) = Ok (records_as dnames df) /\
     build_districts_request (Frame df) da
     = build_districts_request (Rows (records_as dnames df)) da) /\
  (~ Forall (fun n => LStr n ∈ columns df) names ->
   2 <= length (columns df) ->
   Forall (fun n => LStr n ∉ drop 2 (columns df)) names ->
     normalize_states (Frame df) = Ok (records_as names df) /\
     (rows df <> [] -> States.color_scale a ∈ COLOR_SCALES ->
      exists body,
        build_states_request (Frame df) a = Ok body /\
        body_records body = Some (records_as names df))) /\
  (~ Forall (fun n => LStr n ∈ columns df) dnames ->
   3 <= length (columns df) ->
   Forall (fun n => LStr n ∉ drop 3 (columns df)) dnames ->
     normalize_districts (Frame df) = Ok (records_as dnames df) /\
     (rows df <> [] -> Districts.color_scale da ∈ COLOR_SCALES ->
      Districts.map_type da ∈ valid_map_types ->
      exists body,
        build_districts_request (Frame df) da = Ok body /\
        body_records body = Some (records_as dnames df))) /\
  (length (columns df) < 2 ->
     exists msg,
       build_states_request (Frame df) a = Raise (BharatVizError msg) /\
       forall c, c ∈ columns df -> contains msg (py_repr_label c)) /\
  (length (columns df) < 3 ->
     exists msg,
       build_districts_request (Frame df) da = Raise (BharatVizError msg) /\
       forall c, c ∈ columns df -> contains msg (py_repr_label c)).
Proof.
  cbv zeta. repeat apply conj.
  - intros Hcols. pose proof (normalize_states_exact df Hcols) as Hn.
    split; [exact Hn | by apply build_states_of_records].
  - intros Hcols. pose proof (normalize_districts_exact df Hcols) as Hn.
    split; [exact Hn | by apply build_districts_of_records].
  - intros Hmiss Hlen Hrest.
    assert (normalize_states (Frame df) = Ok (records_as ["state"; "value"] df))
      as Hn.
    { apply normalize_states_positional; [|done|..].
      - intros [Hs Hv]. apply Hmiss. by repeat constructor.
      - by inversion Hrest.
      - inversion Hrest as [|? ? _ Hrest']. by inversion Hrest'. }
    split; [exact Hn|]. intros Hrows Hscale.
    rewrite (build_states_of_records _ _ a Hn).
    apply build_states_accepts; [by apply records_as_nonempty | done].
  - intros Hmiss Hlen Hrest.
    assert (normalize_districts (Frame df)
            = Ok (records_as ["state"; "district"; "value"] df)) as Hn.
    { inversion Hrest as [|? ? Hs Hrest']. inversion Hrest' as [|? ? Hd Hrest''].
      inversion Hrest'' as [|? ? Hv _]. subst.
      apply normalize_districts_positional; [|done..].
      intros (? & ? & ?). apply Hmiss. by repeat constructor. }
    split; [exact Hn|]. intros Hrows Hscale Htype.
    rewrite (build_districts_of_records _ _ da Hn).
    apply build_districts_accepts; [by apply records_as_nonempty | done..].
  - intros Hlen. eexists. split.
    + unfold build_states_request.
      by rewrite (normalize_states_few df Hlen).
    + intros c Hc. by apply few_columns_named.
  - intros Hlen. eexists. split.
    + unfold build_districts_request.
      by rewrite (normalize_districts_few df Hlen).
    + intros c Hc. by apply few_columns_named.
Qed.

(** ** Worked examples *)

(** C1 as stated fails: a record with one more key goes into the body with
    that key. *)
Lemma rows_extra_key_reaches_body :
  [goa_noted] <> [] /\
  States.color_scale States.defaults ∈ COLOR_SCALES /\
  exists body recs,
    build_states_request (Rows [goa_noted]) States.defaults = Ok body /\
    body_records body = Some recs /\
    length recs = 1 /\
    ~ Forall (fun r : record => dom r ⊆ state_keys) recs.
Proof.
  split; [discriminate|]. split; [compute_done|].
  eexists _, [goa_noted]. split; [reflexivity|]. split; [reflexivity|].
  split; [reflexivity|].
  intros Hall. apply Forall_inv in Hall.
  assert ("note" ∈ dom goa_noted) as Hnote by compute_done.
  apply Hall in Hnote. revert Hnote. compute_done.
Qed.

(** C2 as stated fails twice.  A frame with other names, two columns and no
    row is renamed but the build is refused; and when a later column is
    already called [state], the renamed frame has two columns of that name
    and the record takes the later one, not the first. *)
Lemma positional_renaming_counterexample :
  (~ Forall (fun n => LStr n ∈ columns no_rows) ["state"; "value"] /\
   2 <= length (columns no_rows) /\
   build_states_request (Frame no_rows) States.defaults
   = Raise (BharatVizError "Data cannot be empty")) /\
  (~ Forall (fun n => LStr n ∈ columns late_state_column) ["state"; "value"] /\
   2 <= length (columns late_state_column) /\
   normalize_states (Frame late_state_column)
   = Ok [list_to_map [("state", PStr "Kerala"); ("value", PNum 1)]] /\
   records_as ["state"; "value"] late_state_column
   = [list_to_map [("state", PStr "Goa"); ("value", PNum 1)]] /\
   normalize_states (Frame late_state_column)
   <> Ok (records_as ["state"; "value"] late_state_column)).
Proof.
  split.
  - split; [|split; [cbn; lia | reflexivity]].
    intros H. apply Forall_inv in H. revert H. compute_done.
  - split; [|split; [cbn; lia | split; [reflexivity | split; [reflexivity|]]]].
    + intros H. apply Forall_inv_tail, Forall_inv in H. revert H. compute_done.
    + intros H.
      assert (match normalize_states (Frame late_state_column) with
              | Ok [m] => m !! "state"
              | _ => None
              end = Some (PStr "Kerala")) as Hstate by reflexivity.
      rewrite H in Hstate. vm_compute in Hstate. discriminate Hstate.
Qed.

(** C7: a body that says [success] and has no [exports] field makes
    [generate_map] raise [KeyError], not [BharatVizError], after the post. *)
Lemma missing_exports_escapes_as_KeyError :
  build_states_request (Rows [goa]) States.defaults <> Raise (KeyError "exports") /\
  bare_success_response !! "success" = Some (PBool true) /\
  bare_success_response !! "exports" = None /\
  (generate_map (answering (JsonBody (PDict bare_success_response)))
     (Rows [goa]) States.defaults fresh_world).1
  = Raise (KeyError "exports") /\
  (generate_districts_map (answering (JsonBody (PDict bare_success_response)))
     (Rows [panaji]) Districts.defaults fresh_world).1
  = Raise (KeyError "exports") /\
  length (posts (generate_map (answering (JsonBody (PDict bare_success_response)))
     (Rows [goa]) States.defaults fresh_world).2) = 1.
Proof. repeat split; try reflexivity. discriminate. Qed.

(** C4 as stated fails: the payload of a PNG export may decode to bytes
    that are no image, and PIL then refuses the stream with an [OSError];
    and with a save path the call stops at the saved-to line when the
    standard output cannot encode it, the file being written already. *)
Lemma png_payload_need_not_open :
  let raw := String.list_byte_of_string "hi" in
  three_exports_response !! "success" = Some (PBool true) /\
  three_exports_response !! "exports"
    = Some (PList [png_entry; svg_entry; pdf_entry]) /\
  export_of "png" (PStr "aGk=") png_entry /\
  b64decode (PStr "aGk=") = Ok raw /\
  PIL_AVAILABLE (checking_signature InvalidJson) = true /\
  decode (checking_signature InvalidJson) "✅ Map saved to: " "BharatViz"
    false None true (12, 12)%Q (PDict three_exports_response) fresh_world
  = (Raise OSError, fresh_world) /\
  decode (ascii_stdout InvalidJson) "✅ Map saved to: " "BharatViz"
    false (Some "map.png") true (12, 12)%Q (PDict three_exports_response)
    fresh_world
  = (Raise ValueError,
     mkWorld (this fresh_world) (posts fresh_world)
       (<["map.png" := raw]> (files fresh_world)) (stdout fresh_world)
       (shown fresh_world)).
Proof.
  intros raw. repeat split; try reflexivity.
  eexists. split; [reflexivity|]. split; reflexivity.
Qed.


Lemma generate_map_rows_body_witness :
  [goa] <> [] /\
  States.color_scale States.defaults ∈ COLOR_SCALES /\
  exists body recs,
    build_states_request (Rows [goa]) States.defaults = Ok body /\
    issued_by fresh_world
      (generate_map (answering InvalidJson) (Rows [goa]) States.defaults
         fresh_world).2
      = [mkCall (states_endpoint (this fresh_world)) body 30] /\
    body_records body = Some recs /\
    recs = [goa] /\
    length recs = length [goa] /\
    (Forall (fun r : record => dom r ⊆ state_keys) [goa] ->
     Forall (fun r : record => dom r ⊆ state_keys) recs).
Proof.
  assert ([goa] <> []) as Hne by discriminate.
  assert (States.color_scale States.defaults ∈ COLOR_SCALES) as Hscale
    by (vm_compute; apply list_elem_of_here).
  split; [exact Hne|]. split; [exact Hscale|].
  exact (generate_map_rows_body (answering InvalidJson) [goa] States.defaults
           fresh_world Hne Hscale).
Defined.

Lemma invalid_request_rejected_before_post_witness :
  let rt := answering InvalidJson in
  (normalize_states (Rows []) = Ok [] \/
   States.color_scale States.defaults ∉ COLOR_SCALES) /\
  (normalize_districts (Rows [panaji]) = Ok [] \/
   Districts.color_scale census_args ∉ COLOR_SCALES \/
   Districts.map_type census_args ∉ valid_map_types) /\
  (exists msg, generate_map rt (Rows []) States.defaults fresh_world
               = (Raise (BharatVizError msg), fresh_world)) /\
  (exists msg, generate_districts_map rt (Rows [panaji]) census_args fresh_world
               = (Raise (BharatVizError msg), fresh_world)) /\
  issued_by fresh_world
    (generate_map rt (Rows []) States.defaults fresh_world).2 = [] /\
  issued_by fresh_world
    (generate_districts_map rt (Rows [panaji]) census_args fresh_world).2 = [].
Proof.
  intros rt.
  assert (normalize_states (Rows []) = Ok [] \/
          States.color_scale States.defaults ∉ COLOR_SCALES) as Hs
    by (left; reflexivity).
  assert (normalize_districts (Rows [panaji]) = Ok [] \/
          Districts.color_scale census_args ∉ COLOR_SCALES \/
          Districts.map_type census_args ∉ valid_map_types) as Hd.
  { right; right. apply (bool_decide_unpack _). vm_compute. exact I. }
  exact (conj Hs (conj Hd
    (invalid_request_rejected_before_post rt (Rows []) States.defaults
       (Rows [panaji]) census_args fresh_world Hs Hd))).
Defined.

Lemma decode_png_round_trip_witness :
  let rt := checking_signature InvalidJson in
  let payload := PStr "iVBORw0KGgo=" in
  let png := export_entry "png" "iVBORw0KGgo=" in
  let d : gmap string pyval :=
    list_to_map [("success", PBool true);
                 ("exports", PList ([] ++ png :: [svg_entry]));
                 ("metadata", stats)] in
  let w' := mkWorld (this fresh_world) (posts fresh_world)
              (<["map.png" := png_signature]> (files fresh_world))
              (stdout fresh_world ++ ["✅ Map saved to: " +:+ "map.png"])
              (shown fresh_world
               ++ [mkFigure (12, 12)%Q (mkImage png_signature) "BharatViz"]) in
  export_of "png" payload png /\
  b64decode payload = Ok png_signature /\
  Image_identify rt png_signature = true /\
  present rt "✅ Map saved to: " "BharatViz" true (Some "map.png") (12, 12)%Q
    (mkImage png_signature) fresh_world = (Ok tt, w') /\
  exists image out,
    Image_open rt png_signature = Ok image /\
    decode rt "✅ Map saved to: " "BharatViz" true (Some "map.png") true
      (12, 12)%Q (PDict d) fresh_world = (Ok out, w') /\
    out = AllExports image (PList ([] ++ png :: [svg_entry])) stats /\
    (true = true ->
     output_getitem out "metadata" = Ok stats /\
     output_getitem out "exports" = Ok (PList ([] ++ png :: [svg_entry]))).
Proof.
  intros rt payload png d w'.
  assert (export_of "png" payload png) as Hpng.
  { eexists. split; [reflexivity|]. split; reflexivity. }
  assert (b64decode payload = Ok png_signature) as Hb64 by reflexivity.
  assert (Image_identify rt png_signature = true) as Hident by reflexivity.
  assert (present rt "✅ Map saved to: " "BharatViz" true (Some "map.png")
            (12, 12)%Q (mkImage png_signature) fresh_world = (Ok tt, w'))
    as Hpresent by reflexivity.
  refine (conj Hpng (conj Hb64 (conj Hident (conj Hpresent _)))).
  exact (decode_png_round_trip rt "✅ Map saved to: " "BharatViz" true
           (Some "map.png") true (12, 12)%Q d [] [svg_entry] png payload
           stats png_signature fresh_world w' eq_refl eq_refl
           (List.Forall_nil _) Hpng Hb64 eq_refl Hident Hpresent
           (fun _ => eq_refl)).
Defined.

Lemma missing_png_is_an_error_witness :
  let rt := answering (JsonBody (PDict svg_only_response)) in
  let failure := BharatVizError "PNG export not found in response" in
  svg_only_response !! "success" = Some (PBool true) /\
  svg_only_response !! "exports" = Some (PList [svg_entry]) /\
  Forall other_export [svg_entry] /\
  normalize_states (Rows [goa]) = Ok [goa] /\
  normalize_districts (Rows [panaji]) = Ok [panaji] /\
  (generate_map rt (Rows [goa]) States.defaults fresh_world).1 = Raise failure /\
  (generate_districts_map rt (Rows [panaji]) Districts.defaults fresh_world).1
  = Raise failure /\
  (get_metadata rt (Rows [goa]) fresh_world).1 = Raise failure.
Proof.
  intros rt failure.
  assert (svg_only_response !! "success" = Some (PBool true)) as Hsucc
    by reflexivity.
  assert (svg_only_response !! "exports" = Some (PList [svg_entry])) as Hexp
    by reflexivity.
  assert (Forall other_export [svg_entry]) as Hes.
  { constructor; [|constructor].
    eexists _, _. split; [reflexivity|]. split; reflexivity. }
  assert (normalize_states (Rows [goa]) = Ok [goa]) as Hn by reflexivity.
  assert (normalize_districts (Rows [panaji]) = Ok [panaji]) as Hdn
    by reflexivity.
  destruct (missing_png_is_an_error rt svg_only_response [svg_entry]
              (Rows [goa]) [goa] (Rows [panaji]) [panaji] fresh_world
              Hsucc Hexp Hes (fun _ => eq_refl) Hn
              (fun H => match H with end)
              Hdn (fun H => match H with end))
    as (_ & Hmap & Hdistricts & Hmeta).
  refine (conj Hsucc (conj Hexp (conj Hes (conj Hn (conj Hdn
            (conj _ (conj _ Hmeta))))))).
  - apply Hmap. apply (bool_decide_unpack _). vm_compute. exact I.
  - apply Hdistricts; apply (bool_decide_unpack _); vm_compute; exact I.
Defined.

Lemma server_failure_message_propagates_witness :
  let rt := answering (JsonBody (PDict failure_response)) in
  failure_response !! "success" = Some (PBool false) /\
  build_states_request (Rows [goa]) States.defaults = Ok goa_request /\
  build_districts_request (Rows [panaji]) Districts.defaults
  = Ok panaji_request /\
  exists msg,
    (generate_map rt (Rows [goa]) States.defaults fresh_world).1
    = Raise (BharatVizError msg) /\
    (generate_districts_map rt (Rows [panaji]) Districts.defaults
       fresh_world).1 = Raise (BharatVizError msg) /\
    msg = "API error: " +:+ "bad state name" /\
    contains msg "bad state name".
Proof.
  intros rt.
  assert (failure_response !! "success" = Some (PBool false)) as Hsucc
    by reflexivity.
  assert (build_states_request (Rows [goa]) States.defaults = Ok goa_request)
    as Hb by reflexivity.
  assert (build_districts_request (Rows [panaji]) Districts.defaults
          = Ok panaji_request) as Hdb by reflexivity.
  refine (conj Hsucc (conj Hb (conj Hdb _))).
  exact (server_failure_message_propagates rt failure_response
           (list_to_map [("message", PStr "bad state name")]) "bad state name"
           (Rows [goa]) States.defaults goa_request
           (Rows [panaji]) Districts.defaults panaji_request fresh_world
           Hsucc eq_refl eq_refl (fun _ => eq_refl) Hb Hdb).
Defined.


Lemma columnar_input_normalised_witness :
  let names := ["state"; "value"] in
  let dnames := ["state"; "district"; "value"] in
  normalize_states (Frame named_columns) = Ok (records_as names named_columns) /\
  normalize_districts (Frame named_district_columns)
  = Ok (records_as dnames named_district_columns) /\
  normalize_states (Frame unnamed_columns)
  = Ok (records_as names unnamed_columns) /\
  (exists body,
     build_states_request (Frame unnamed_columns) States.defaults = Ok body /\
     body_records body = Some [goa]) /\
  normalize_districts (Frame unnamed_district_columns)
  = Ok (records_as dnames unnamed_district_columns) /\
  (exists msg,
     build_states_request (Frame one_column) States.defaults
     = Raise (BharatVizError msg) /\
     contains msg "'region'") /\
  (exists msg,
     build_districts_request (Frame two_columns) Districts.defaults
     = Raise (BharatVizError msg) /\
     contains msg "'state'" /\ contains msg "'value'").
Proof.
  intros names dnames.
  pose proof (columnar_input_normalised named_columns States.defaults
                Districts.defaults) as (Hexact & _).
  pose proof (columnar_input_normalised named_district_columns States.defaults
                Districts.defaults) as (_ & Hdexact & _).
  pose proof (columnar_input_normalised unnamed_columns States.defaults
                Districts.defaults) as (_ & _ & Hpos & _).
  pose proof (columnar_input_normalised unnamed_district_columns
                States.defaults Districts.defaults)
    as (_ & _ & _ & Hdpos & _).
  pose proof (columnar_input_normalised one_column States.defaults
                Districts.defaults) as (_ & _ & _ & _ & Hfew & _).
  pose proof (columnar_input_normalised two_columns States.defaults
                Districts.defaults) as (_ & _ & _ & _ & _ & Hdfew).
  cbv zeta in *.
  assert (forall df : DataFrame label, forall n : string,
            bool_decide (LStr n ∈ columns df) = false ->
            forall l, ~ Forall (fun n => LStr n ∈ columns df) (n :: l))
    as Hmissing.
  { intros df n Hn l Hall. apply Forall_inv in Hall.
    by apply bool_decide_eq_false in Hn. }
  assert (forall df : DataFrame label, forall k (l : list string),
            forallb (fun n => negb (bool_decide (LStr n ∈ drop k (columns df)))) l
            = true ->
            Forall (fun n => LStr n ∉ drop k (columns df)) l) as Hrest.
  { intros df k l Hl. apply Forall_forall. intros n Hn.
    rewrite forallb_forall in Hl. specialize (Hl n).
    rewrite <- list_elem_of_In in Hl. specialize (Hl Hn).
    apply negb_true_iff in Hl. by apply bool_decide_eq_false in Hl. }
  destruct (Hpos (Hmissing unnamed_columns "state" eq_refl _)
              ltac:(cbn; lia) (Hrest unnamed_columns 2 ["state"; "value"] eq_refl))
    as [Hpos1 Hpos2].
  destruct (Hdpos (Hmissing unnamed_district_columns "state" eq_refl _)
              ltac:(cbn; lia) (Hrest unnamed_district_columns 3 ["state"; "district"; "value"] eq_refl))
    as [Hdpos1 _].
  destruct (Hfew ltac:(cbn; lia)) as (msg & Hmsg & Hnames).
  destruct (Hdfew ltac:(cbn; lia)) as (dmsg & Hdmsg & Hdnames).
  refine (conj (proj1 (Hexact eq_refl))
         (conj (proj1 (Hdexact eq_refl))
         (conj Hpos1 (conj _ (conj Hdpos1 (conj _ _)))))).
  - apply Hpos2; [discriminate|].
    apply (bool_decide_unpack _). vm_compute. exact I.
  - exists msg. split; [exact Hmsg|].
    apply (Hnames (LStr "region")). apply list_elem_of_here.
  - exists dmsg. split; [exact Hdmsg|]. split.
    + apply (Hdnames (LStr "state")). apply list_elem_of_here.
    + apply (Hdnames (LStr "value")). apply list_elem_of_further, list_elem_of_here.
Defined.

(** * Further properties of the client *)

Section Further.
Context (rt : Runtime).

(** ** Transport and decoding failures *)

(** X1.  Once the request is built, a [RequestException] of the post fails
    the call with [BharatVizError] quoting its text, and a body that is not
    JSON with the fixed message; in both cases the post has been sent and
    nothing else has changed.  The same holds for the districts call. *)
Theorem transport_failure_is_reported
    (data : table) (a : States.args) (body : pyval)
    (ddata : table) (da : Districts.args) (dbody : pyval) (w : World) :
  build_states_request data a = Ok body ->
  build_districts_request ddata da = Ok dbody ->
  let call := mkCall (states_endpoint (this w)) body 30 in
  let dcall := mkCall (districts_endpoint (this w)) dbody 60 in
  (forall e, server rt (posts w) call = RequestException e ->
     generate_map rt data a w
     = (Raise (BharatVizError ("API request failed: " +:+ e)),
        after_post w call)) /\
  (server rt (posts w) call = InvalidJson ->
     generate_map rt data a w
     = (Raise (BharatVizError "Invalid JSON response from API"),
        after_post w call)) /\
  (forall e, server rt (posts w) dcall = RequestException e ->
     generate_districts_map rt ddata da w
     = (Raise (BharatVizError ("API request failed: " +:+ e)),
        after_post w dcall)) /\
  (server rt (posts w) dcall = InvalidJson ->
     generate_districts_map rt ddata da w
     = (Raise (BharatVizError "Invalid JSON response from API"),
        after_post w dcall)).
Proof.
  intros Hb Hdb call dcall.
  rewrite generate_map_run, generate_districts_map_run, Hb, Hdb. cbv zeta.
  fold call dcall.
  repeat split; [intros e He | intros He | intros e He | intros He];
    by rewrite He.
Qed.

(** X2.  With a PNG export in a successful body but PIL missing, the decode
    step fails with the configuration [BharatVizError] before the payload is
    looked at, and changes nothing. *)
Theorem pil_missing_is_reported
    saved_line title show save_path return_all figsize
    (d : gmap string pyval) (pre post : list pyval) (png payload : pyval)
    (w : World) :
  d !! "success" = Some (PBool true) ->
  d !! "exports" = Some (PList (pre ++ png :: post)) ->
  Forall other_export pre -> export_of "png" payload png ->
  PIL_AVAILABLE rt = false ->
  decode rt saved_line title show save_path return_all figsize (PDict d) w
  = (Raise (BharatVizError
       "PIL is required to handle images. Install with: pip install pillow"),
     w).
Proof.
  intros Hsucc Hexp Hpre Hpng Hpil. unfold decode.
  rewrite run_lift, (py_get_some _ _ _ _ Hsucc). cbn [py_truthy negb].
  rewrite run_lift, (py_getitem_some _ _ _ Hexp).
  rewrite run_lift. cbn [py_iter].
  rewrite run_lift, (first_png_found pre post png payload Hpre Hpng).
  by rewrite (export_truthy _ _ _ Hpng), Hpil.
Qed.

(** X3.  Saving comes before the display check: with a save path that is
    not empty and can be written, an image the encoder accepts and a
    saved-to line the standard output can encode, a call that asks for
    display without matplotlib fails with [BharatVizError] only after the
    file has been written and the line printed. *)
Theorem saved_before_display
    saved_line title (p : string) return_all figsize
    (d : gmap string pyval) (pre post : list pyval)
    (png payload : pyval) (raw content : bytes) (w : World) :
  d !! "success" = Some (PBool true) ->
  d !! "exports" = Some (PList (pre ++ png :: post)) ->
  Forall other_export pre -> export_of "png" payload png ->
  b64decode payload = Ok raw ->
  PIL_AVAILABLE rt = true -> Image_identify rt raw = true ->
  p <> "" -> writable rt p = true ->
  Image_encode rt (mkImage raw) p = Ok content ->
  stdout_encodes rt (saved_line +:+ p) = true ->
  MPL_AVAILABLE rt = false ->
  decode rt saved_line title true (Some p) return_all figsize (PDict d) w
  = (Raise (BharatVizError
       ("matplotlib is required to display images. "
        +:+ "Install with: pip install matplotlib")),
     mkWorld (this w) (posts w) (<[p := content]> (files w))
       (stdout w ++ [saved_line +:+ p]) (shown w)).
Proof.
  intros Hsucc Hexp Hpre Hpng Hb64 Hpil Hident Hp Hw Henc Hout Hmpl.
  rewrite (decode_reaches_image rt _ _ _ _ _ _ d pre post png payload raw w)
    by assumption.
  rewrite run_bind. unfold present, path_given.
  apply String.eqb_neq in Hp. rewrite Hp.
  rewrite run_bind, run_bind. unfold Image_save.
  rewrite run_lift, Henc. unfold write_file. rewrite Hw.
  unfold print. cbn [this posts files stdout shown]. rewrite Hout, Hmpl.
  reflexivity.
Qed.

Lemma decode_idle saved_line title save_path return_all figsize result w :
  path_given save_path = None ->
  (decode rt saved_line title false save_path return_all figsize result w).2
  = w.
Proof.
  intros Hpath. unfold decode, present. rewrite Hpath.
  unfold mbind, M_bind, mret, M_ret, lift, raise.
  repeat case_match; simplify_eq/=; auto.
Qed.

(** X4.  Without a save path (none, or the empty string) and without
    [show], a call changes the world by its post at most, whatever its
    outcome: no file is written, nothing is printed, no figure is shown. *)
Theorem nothing_saved_or_shown_unasked
    (data : table) (a : States.args) (ddata : table) (da : Districts.args)
    (w : World) :
  path_given (States.save_path a) = None -> States.show a = false ->
  path_given (Districts.save_path da) = None -> Districts.show da = false ->
  (generate_map rt data a w).2 =
    match build_states_request data a with
    | Ok body => after_post w (mkCall (states_endpoint (this w)) body 30)
    | Raise _ => w
    end /\
  (generate_districts_map rt ddata da w).2 =
    match build_districts_request ddata da with
    | Ok body => after_post w (mkCall (districts_endpoint (this w)) body 60)
    | Raise _ => w
    end.
Proof.
  intros Hpath Hshow Hdpath Hdshow.
  rewrite generate_map_run, generate_districts_map_run, Hshow, Hdshow.
  split.
  - destruct (build_states_request data a) as [body|e]; [|done].
    cbv zeta. destruct (server rt (posts w) _); [done..|].
    by apply decode_idle.
  - destruct (build_districts_request ddata da) as [body|e]; [|done].
    cbv zeta. destruct (server rt (posts w) _); [done..|].
    by apply decode_idle.
Qed.

(** X5.  A body whose [success] is missing or falsy and that has no [error]
    field, or an error object without a message, fails the decode step with
    the text "API error: Unknown error" and changes nothing. *)
Theorem unknown_error_by_default
    saved_line title show save_path return_all figsize
    (d : gmap string pyval) (w : World) :
  (forall s, d !! "success" = Some s -> py_truthy s = false) ->
  d !! "error" = None \/
  (exists e, d !! "error" = Some (PDict e) /\ e !! "message" = None) ->
  decode rt saved_line title show save_path return_all figsize (PDict d) w
  = (Raise (BharatVizError "API error: Unknown error"), w).
Proof.
  intros Hfalsy Herr. unfold decode. rewrite run_lift. cbn [py_get].
  assert (py_truthy (default PNone (d !! "success")) = false) as ->.
  { destruct (d !! "success") as [s|]; [by apply Hfalsy | done]. }
  cbn [negb]. rewrite run_lift. cbn [py_get].
  destruct Herr as [-> | (e & -> & Hmsg)]; cbn [from_option id].
  - rewrite run_lift. cbn [py_get]. by rewrite lookup_empty.
  - rewrite run_lift. cbn [py_get]. by rewrite Hmsg.
Qed.

(** X6.  With [return_all], a successful body that lacks [metadata] makes
    the decode step raise [KeyError] on that key, not [BharatVizError], and
    only after the image has been saved and shown as requested; without
    [return_all] the same body decodes to the image. *)
Theorem missing_metadata_raises_KeyError
    saved_line title show save_path figsize
    (d : gmap string pyval) (pre post : list pyval) (png payload : pyval)
    (raw : bytes) (w w' : World) :
  d !! "success" = Some (PBool true) ->
  d !! "exports" = Some (PList (pre ++ png :: post)) ->
  Forall other_export pre -> export_of "png" payload png ->
  b64decode payload = Ok raw ->
  PIL_AVAILABLE rt = true -> Image_identify rt raw = true ->
  present rt saved_line title show save_path figsize (mkImage raw) w
  = (Ok tt, w') ->
  d !! "metadata" = None ->
  decode rt saved_line title show save_path true figsize (PDict d) w
  = (Raise (KeyError "metadata"), w') /\
  decode rt saved_line title show save_path false figsize (PDict d) w
  = (Ok (ImageOnly (mkImage raw)), w').
Proof.
  intros Hsucc Hexp Hpre Hpng Hb64 Hpil Hident Hpresent Hmeta.
  rewrite !(decode_reaches_image rt _ _ _ _ _ _ d pre post png payload raw w)
    by assumption.
  rewrite !run_bind, Hpresent.
  split; [|reflexivity].
  by rewrite run_lift, (py_getitem_none _ _ Hmeta).
Qed.

End Further.

(** ** What normalisation yields *)

Lemma get_indexer_sound (keys : list string) (cols : list label)
    (ix : list (string * nat)) :
  get_indexer keys cols = Ok ix ->
  Forall (fun kp => kp.1 ∈ keys /\ cols !! kp.2 = Some (LStr kp.1)) ix.
Proof.
  revert ix. induction keys as [|k keys IH]; intros ix; cbn.
  - intros [= <-]. constructor.
  - assert (forall i, Forall (fun p => exists q, p = i + q /\ cols !! q = Some (LStr k))
                        (positions_from i k cols)) as Hpos.
    { clear. induction cols as [|c cols IHc]; intros i; cbn; [constructor|].
      case_bool_decide as Hc.
      - constructor; [exists 0; split; [lia | by rewrite Hc]|].
        eapply Forall_impl; [apply (IHc (S i))|].
        intros p (q & -> & Hq). exists (S q). split; [lia | done].
      - eapply Forall_impl; [apply (IHc (S i))|].
        intros p (q & -> & Hq). exists (S q). split; [lia | done]. }
    unfold positions. specialize (Hpos 0).
    destruct (positions_from 0 k cols) as [|p ps]; [done|].
    destruct (get_indexer keys cols) as [rest|e]; [|done]. cbn.
    intros [= <-]. change (Forall (fun kp : string * nat =>
        kp.1 ∈ k :: keys /\ cols !! kp.2 = Some (LStr kp.1))
      (((fun p0 => (k, p0)) <$> p :: ps) ++ rest)).
    apply Forall_app. split.
    + apply Forall_fmap. eapply Forall_impl; [exact Hpos|].
      intros q (q' & -> & Hq). cbn. split; [apply list_elem_of_here | done].
    + eapply Forall_impl; [apply (IH rest eq_refl)|].
      intros kp [Hk Hc]. split; [by apply list_elem_of_further | done].
Qed.

Lemma dict_zip_dom (cols : list string) (row : list pyval) :
  dom (dict_zip cols row) ⊆ list_to_set cols.
Proof.
  unfold dict_zip. rewrite dom_list_to_map_L.
  intros k Hk. apply elem_of_list_to_set in Hk. apply elem_of_list_to_set.
  apply list_elem_of_fmap in Hk as ([k' v] & -> & Hkv).
  rewrite elem_of_reverse in Hkv. by apply elem_of_zip_l in Hkv.
Qed.

Lemma dict_zip_dom_full (cols : list string) (row : list pyval) :
  length cols = length row ->
  dom (dict_zip cols row) = list_to_set cols.
Proof.
  intros Hlen. unfold dict_zip. rewrite dom_list_to_map_L.
  rewrite fmap_reverse, fst_zip by lia.
  apply set_eq. intros k. rewrite !elem_of_list_to_set. apply elem_of_reverse.
Qed.

Lemma take_cells_length (ps : list nat) (row : list pyval) :
  Forall (fun p => p < length row) ps ->
  length (take_cells ps row) = length ps.
Proof.
  unfold take_cells. induction 1 as [|p ps Hp _ IH]; [done|].
  cbn. destruct (lookup_lt_is_Some_2 row p Hp) as [v ->]. cbn. by rewrite IH.
Qed.

Lemma get_indexer_complete (keys : list string) (cols : list label)
    (ix : list (string * nat)) :
  get_indexer keys cols = Ok ix -> forall k, k ∈ keys -> k ∈ ix.*1.
Proof.
  revert ix. induction keys as [|k0 keys IH]; intros ix; cbn [get_indexer].
  - intros _ k Hk. by apply elem_of_nil in Hk.
  - destruct (positions k0 cols) as [|p ps]; [done|].
    destruct (get_indexer keys cols) as [rest|e]; [|done].
    cbv beta iota delta [mbind Result_bind].
    intros [= <-] k Hk. rewrite fmap_cons, fmap_app.
    apply elem_of_cons in Hk as [-> | Hk]; [apply list_elem_of_here|].
    apply list_elem_of_further, elem_of_app. right. by apply (IH rest eq_refl).
Qed.

Lemma selected_records_shape (keys : list string) (cols : list label)
    (rs : list (list pyval)) (ix : list (string * nat)) :
  get_indexer keys cols = Ok ix ->
  let recs := dict_zip (ix.*1) <$> (take_cells (ix.*2) <$> rs) in
  length recs = length rs /\
  Forall (fun r : record => dom r ⊆ list_to_set keys) recs /\
  (Forall (fun row => length row = length cols) rs ->
   Forall (fun r : record => dom r = list_to_set keys) recs).
Proof.
  intros Hix recs. subst recs.
  pose proof (get_indexer_sound keys cols ix Hix) as Hsound.
  pose proof (get_indexer_complete keys cols ix Hix) as Hcomplete.
  assert (list_to_set (C := gset string) (ix.*1) = list_to_set keys) as Hset.
  { apply set_eq. intros k. rewrite !elem_of_list_to_set. split.
    - intros Hk. apply list_elem_of_fmap in Hk as (kp & -> & Hkp).
      rewrite Forall_forall in Hsound. by apply Hsound.
    - apply Hcomplete. }
  split; [by rewrite !length_fmap|]. split.
  - rewrite <- list_fmap_compose. apply Forall_fmap, Forall_forall.
    intros row _. cbn. rewrite <- Hset. apply dict_zip_dom.
  - intros Hwf. rewrite <- list_fmap_compose. apply Forall_fmap.
    eapply Forall_impl; [exact Hwf|]. intros row Hrow. cbn.
    rewrite <- Hset. apply dict_zip_dom_full.
    rewrite take_cells_length, !length_fmap; [done|].
    apply Forall_fmap. eapply Forall_impl; [exact Hsound|].
    intros kp [_ Hc]. cbn. rewrite Hrow. by eapply lookup_lt_Some.
Qed.

Lemma normalize_states_selects (df : DataFrame label) (recs : list record) :
  normalize_states (Frame df) = Ok recs ->
  exists cols' ix,
    length cols' = length (columns df) /\
    get_indexer ["state"; "value"] cols' = Ok ix /\
    recs = dict_zip (ix.*1) <$> (take_cells (ix.*2) <$> rows df).
Proof.
  destruct df as [cols rs]. unfold normalize_states, set_columns, getitem_list.
  cbn [columns rows].
  destruct (negb _ || negb _).
  - case_bool_decide as Hlen; [|done]. case_bool_decide as Hlen'; [|done].
    cbv beta iota delta [mbind Result_bind]. cbn [columns rows].
    match goal with
    | |- context [get_indexer ?k ?c] =>
        destruct (get_indexer k c) as [ix|e] eqn:Hix; [|done]
    end.
    intros [= <-]. eexists _, ix. split; [exact Hlen'|]. by split.
  - cbv beta iota delta [mbind Result_bind]. cbn [columns rows].
    match goal with
    | |- context [get_indexer ?k ?c] =>
        destruct (get_indexer k c) as [ix|e] eqn:Hix; [|done]
    end.
    intros [= <-]. by eexists _, ix.
Qed.

Lemma normalize_districts_selects (df : DataFrame label) (recs : list record) :
  normalize_districts (Frame df) = Ok recs ->
  exists cols' ix,
    length cols' = length (columns df) /\
    get_indexer ["state"; "district"; "value"] cols' = Ok ix /\
    recs = dict_zip (ix.*1) <$> (take_cells (ix.*2) <$> rows df).
Proof.
  destruct df as [cols rs].
  unfold normalize_districts, set_columns, getitem_list.
  cbn [columns rows]. cbv zeta.
  destruct (negb _).
  - case_bool_decide as Hlen; [|done]. case_bool_decide as Hlen'; [|done].
    cbv beta iota delta [mbind Result_bind]. cbn [columns rows].
    match goal with
    | |- context [get_indexer ?k ?c] =>
        destruct (get_indexer k c) as [ix|e] eqn:Hix; [|done]
    end.
    intros [= <-]. eexists _, ix. split; [exact Hlen'|]. by split.
  - cbv beta iota delta [mbind Result_bind]. cbn [columns rows].
    match goal with
    | |- context [get_indexer ?k ?c] =>
        destruct (get_indexer k c) as [ix|e] eqn:Hix; [|done]
    end.
    intros [= <-]. by eexists _, ix.
Qed.

(** X7.  Whatever columns a frame has, the records it is normalised to
    are one per row and carry no key beyond the required names; when every
    row has a cell for every column they carry exactly those names. *)
Theorem frame_records_carry_required_keys (df : DataFrame label) :
  (forall recs, normalize_states (Frame df) = Ok recs ->
     length recs = length (rows df) /\
     Forall (fun r : record => dom r ⊆ state_keys) recs /\
     (wf_frame df -> Forall (fun r : record => dom r = state_keys) recs)) /\
  (forall recs, normalize_districts (Frame df) = Ok recs ->
     length recs = length (rows df) /\
     Forall (fun r : record => dom r ⊆ district_keys) recs /\
     (wf_frame df -> Forall (fun r : record => dom r = district_keys) recs)).
Proof.
  assert (state_keys = list_to_set ["state"; "value"]) as -> by compute_done.
  assert (district_keys = list_to_set ["state"; "district"; "value"]) as ->
    by compute_done.
  split; intros recs Hn.
  - destruct (normalize_states_selects df recs Hn)
      as (cols' & ix & Hlen & Hix & ->).
    destruct (selected_records_shape _ cols' (rows df) ix Hix)
      as (Hl & Hsub & Heq).
    split; [exact Hl|]. split; [exact Hsub|].
    intros Hwf. apply Heq. unfold wf_frame in Hwf. by rewrite Hlen.
  - destruct (normalize_districts_selects df recs Hn)
      as (cols' & ix & Hlen & Hix & ->).
    destruct (selected_records_shape _ cols' (rows df) ix Hix)
      as (Hl & Hsub & Heq).
    split; [exact Hl|]. split; [exact Hsub|].
    intros Hwf. apply Heq. unfold wf_frame in Hwf. by rewrite Hlen.
Qed.

Lemma positions_from_unique (k i : nat) (name : string) (cols : list label) :
  NoDup cols -> cols !! i = Some (LStr name) ->
  positions_from k name cols = [k + i].
Proof.
  revert k i. induction cols as [|c cols IH]; intros k i Hnd Hi; [done|].
  apply NoDup_cons in Hnd as [Hc Hnd]. cbn [positions_from].
  destruct i as [|i]; cbn in Hi.
  - injection Hi as ->. rewrite bool_decide_true by done.
    rewrite (positions_from_absent _ _ _ Hc). f_equal. lia.
  - rewrite bool_decide_false.
    + rewrite (IH (S k) i Hnd Hi). f_equal. lia.
    + intros ->. apply Hc. by eapply list_elem_of_lookup_2.
Qed.

(** X8.  In a frame with distinct labels that has both [state] and [value]
    among its columns, wherever they stand and whatever else is there, each
    record pairs the cell under [state] with the cell under [value] of its
    row; likewise with [district] for the districts call. *)
Theorem named_columns_selected_by_name
    (df : DataFrame label) (i j : nat) (ddf : DataFrame label) (a b c : nat) :
  NoDup (columns df) ->
  columns df !! i = Some (LStr "state") ->
  columns df !! j = Some (LStr "value") ->
  NoDup (columns ddf) ->
  columns ddf !! a = Some (LStr "state") ->
  columns ddf !! b = Some (LStr "district") ->
  columns ddf !! c = Some (LStr "value") ->
  (exists recs,
     normalize_states (Frame df) = Ok recs /\
     length recs = length (rows df) /\
     forall k row s v,
       rows df !! k = Some row -> row !! i = Some s -> row !! j = Some v ->
       recs !! k = Some (list_to_map [("state", s); ("value", v)])) /\
  (exists recs,
     normalize_districts (Frame ddf) = Ok recs /\
     length recs = length (rows ddf) /\
     forall k row s d v,
       rows ddf !! k = Some row ->
       row !! a = Some s -> row !! b = Some d -> row !! c = Some v ->
       recs !! k = Some (list_to_map
                           [("state", s); ("district", d); ("value", v)])).
Proof.
  intros Hnd Hi Hj Hdnd Ha Hb Hc. split.
  - destruct df as [cols rs]. cbn [columns rows] in *.
    unfold normalize_states, col_in, getitem_list. cbn [columns rows].
    rewrite !bool_decide_true by (by eapply list_elem_of_lookup_2).
    cbn [negb orb]. cbv beta iota delta [mbind Result_bind].
    cbn [get_indexer columns rows]. unfold positions.
    rewrite (positions_from_unique 0 i _ _ Hnd Hi),
      (positions_from_unique 0 j _ _ Hnd Hj).
    cbv beta iota delta [mbind Result_bind].
    eexists. split; [reflexivity|]. split.
    + unfold to_dict_records. cbn [columns rows]. by rewrite !length_fmap.
    + intros k row s v Hrow Hs Hv. unfold to_dict_records. cbn [columns rows].
      rewrite !list_lookup_fmap, Hrow. cbn. unfold take_cells. cbn.
      rewrite Hs, Hv. cbn. apply (f_equal Some), map_eq. intros key.
      repeat (rewrite lookup_insert; case_decide; subst; try done).
  - destruct ddf as [cols rs]. cbn [columns rows] in *.
    unfold normalize_districts, col_in, getitem_list. cbn [columns rows forallb].
    rewrite !bool_decide_true by (by eapply list_elem_of_lookup_2).
    cbn [negb andb]. cbv beta iota delta [mbind Result_bind].
    cbn [get_indexer columns rows]. unfold positions.
    rewrite (positions_from_unique 0 a _ _ Hdnd Ha),
      (positions_from_unique 0 b _ _ Hdnd Hb),
      (positions_from_unique 0 c _ _ Hdnd Hc).
    cbv beta iota delta [mbind Result_bind].
    eexists. split; [reflexivity|]. split.
    + unfold to_dict_records. cbn [columns rows]. by rewrite !length_fmap.
    + intros k row s d v Hrow Hs Hd Hv. unfold to_dict_records.
      cbn [columns rows].
      rewrite !list_lookup_fmap, Hrow. cbn. unfold take_cells. cbn.
      rewrite Hs, Hd, Hv. cbn. apply (f_equal Some), map_eq. intros key.
      repeat (rewrite lookup_insert; case_decide; subst; try done).
Qed.

(** X9.  With data present, a colour scale outside the allow-list is refused
    with a message that quotes the scale given and lists every scale that is
    allowed; a districts call with a valid scale and an unknown map type is
    refused with a message that quotes the map type and lists the three
    recognised ones. *)
Theorem invalid_choice_is_named
    (data : table) (recs : list record) (a : States.args)
    (ddata : table) (drecs : list record) (da : Districts.args) :
  normalize_states data = Ok recs -> recs <> [] ->
  States.color_scale a ∉ COLOR_SCALES ->
  normalize_districts ddata = Ok drecs -> drecs <> [] ->
  Districts.color_scale da ∈ COLOR_SCALES ->
  Districts.map_type da ∉ valid_map_types ->
  (exists msg,
     build_states_request data a = Raise (BharatVizError msg) /\
     contains msg ("'" +:+ States.color_scale a +:+ "'") /\
     forall s, s ∈ COLOR_SCALES -> contains msg s) /\
  (exists msg,
     build_districts_request ddata da = Raise (BharatVizError msg) /\
     contains msg ("'" +:+ Districts.map_type da +:+ "'") /\
     forall t, t ∈ valid_map_types -> contains msg t).
Proof.
  intros Hn Hne Hscale Hdn Hdne Hdscale Htype. split.
  - unfold build_states_request. rewrite Hn.
    cbv beta iota delta [mbind Result_bind].
    rewrite bool_decide_false
      by (intros Hl; by apply length_zero_iff_nil in Hl).
    rewrite (bool_decide_false _ Hscale). cbn [negb].
    eexists. split; [reflexivity|]. split.
    + exists "Invalid color scale ",
        (". Choose from: " +:+ str_join ", " COLOR_SCALES).
      rewrite !str_app_assoc. reflexivity.
    + intros s Hs. do 4 apply contains_app_r. by apply contains_join.
  - unfold build_districts_request. rewrite Hdn.
    cbv beta iota delta [mbind Result_bind].
    rewrite bool_decide_false
      by (intros Hl; by apply length_zero_iff_nil in Hl).
    rewrite (bool_decide_true _ Hdscale), (bool_decide_false _ Htype).
    cbn [negb].
    eexists. split; [reflexivity|]. split.
    + exists "Invalid map_type ",
        (". Choose from: " +:+ str_join ", " valid_map_types).
      rewrite !str_app_assoc. reflexivity.
    + intros t Ht. do 4 apply contains_app_r. by apply contains_join.
Qed.

(** ** Saving every format, in general *)

Section Saving.
Context (rt : Runtime).

Lemma save_exports_run (basename : string) (es : list pyval)
    (saved : list (string * bytes)) (rest : list pyval) (w : World) :
  Forall2 (savable rt basename) es saved ->
  save_exports rt basename (es ++ rest) w =
  save_exports rt basename rest
    (mkWorld (this w) (posts w) (written basename saved (files w))
       (stdout w ++ reports basename saved) (shown w)).
Proof.
  intros Hall. revert w.
  induction Hall as [|e fb es saved (payload & He & Hb & Hw & Ho) _ IH];
    intros w.
  - cbn. rewrite app_nil_r. by destruct w.
  - cbn [app]. rewrite (save_one_export rt basename fb.1 payload e fb.2)
      by assumption.
    rewrite IH. cbn [this posts files stdout shown].
    unfold reports. cbn [written foldl fmap list_fmap].
    by rewrite <- app_assoc.
Qed.

Lemma save_all_formats_run (data : table) (basename map_type : string)
    (w : World) :
  save_all_formats rt data basename map_type no_kwargs w =
  match all_formats_call rt data map_type w with
  | (Ok out, w1) =>
      match output_getitem out "exports" with
      | Ok exports =>
          match py_iter exports with
          | Ok es => save_exports rt basename es w1
          | Raise e => (Raise e, w1)
          end
      | Raise e => (Raise e, w1)
      end
  | (Raise e, w1) => (Raise e, w1)
  end.
Proof.
  unfold save_all_formats, all_formats_call. rewrite run_bind.
  assert (bind_districts_args ["png"; "svg"; "pdf"] no_kwargs
          = Ok districts_all_formats) as Hd by reflexivity.
  assert (bind_states_args ["png"; "svg"; "pdf"] no_kwargs
          = Ok states_all_formats) as Hs by reflexivity.
  destruct (String.eqb map_type "districts").
  - rewrite run_lift, Hd.
    destruct (generate_districts_map rt data districts_all_formats w)
      as [[out|e] w1]; [|done].
    rewrite run_lift. destruct (output_getitem out "exports"); [|done].
    rewrite run_lift. by destruct (py_iter _).
  - rewrite run_lift, Hs.
    destruct (generate_map rt data states_all_formats w)
      as [[out|e] w1]; [|done].
    rewrite run_lift. destruct (output_getitem out "exports"); [|done].
    rewrite run_lift. by destruct (py_iter _).
Qed.

Lemma all_formats_call_keeps (data : table) (map_type : string) (w : World) :
  let w1 := (all_formats_call rt data map_type w).2 in
  this w1 = this w /\ files w1 = files w /\ stdout w1 = stdout w /\
  shown w1 = shown w.
Proof.
  unfold all_formats_call.
  destruct (nothing_saved_or_shown_unasked rt data states_all_formats data
              districts_all_formats w eq_refl eq_refl eq_refl eq_refl)
    as [Hs Hd].
  destruct (String.eqb map_type "districts"); cbv zeta.
  - rewrite Hd. by destruct (build_districts_request _ _).
  - rewrite Hs. by destruct (build_states_request _ _).
Qed.

(** X10.  Whatever exports the all-formats call returns, when each is a
    dict with a format and a payload that decodes, its path can be written
    and its report line can be encoded by the standard output,
    [save_all_formats] writes them one after the other to
    [basename.format], a later export replacing an earlier one of the same
    format, prints one line for each, and changes no other file. *)
Theorem save_all_formats_writes_each
    (data : table) (basename map_type : string) (image : Image)
    (es : list pyval) (metadata : pyval) (saved : list (string * bytes))
    (w w1 : World) :
  all_formats_call rt data map_type w
  = (Ok (AllExports image (PList es) metadata), w1) ->
  Forall2 (savable rt basename) es saved ->
  save_all_formats rt data basename map_type no_kwargs w
  = (Ok tt,
     mkWorld (this w) (posts w1) (written basename saved (files w))
       (stdout w ++ reports basename saved) (shown w)).
Proof.
  intros Hcall Hall.
  pose proof (all_formats_call_keeps data map_type w) as Hkeep.
  rewrite Hcall in Hkeep. cbn [snd] in Hkeep.
  destruct Hkeep as (Ht & Hf & Ho & Hs).
  rewrite save_all_formats_run, Hcall.
  change (output_getitem (AllExports image (PList es) metadata) "exports")
    with (Ok (PList es)).
  cbn [py_iter]. rewrite <- (app_nil_r es).
  rewrite (save_exports_run basename es saved [] w1 Hall).
  cbn [save_exports mret M_ret]. by rewrite Ht, Hf, Ho, Hs.
Qed.


(** X12.  When the all-formats call fails, [save_all_formats] fails with the
    same error and has written no file and printed no line. *)
Theorem save_all_formats_aborts_unwritten
    (data : table) (basename map_type : string) (e : exn) (w w1 : World) :
  all_formats_call rt data map_type w = (Raise e, w1) ->
  save_all_formats rt data basename map_type no_kwargs w = (Raise e, w1) /\
  files w1 = files w /\ stdout w1 = stdout w.
Proof.
  intros Hcall.
  pose proof (all_formats_call_keeps data map_type w) as Hkeep.
  rewrite Hcall in Hkeep. cbn [snd] in Hkeep.
  destruct Hkeep as (_ & Hf & Ho & _).
  by rewrite save_all_formats_run, Hcall.
Qed.

End Saving.

(** ** What the helpers ask the service for *)

Section Requests.
Context (rt : Runtime).

(** X13.  Without forwarded keywords [save_all_formats] sends at most one
    post: to the districts endpoint with a timeout of 60 seconds and the map
    type [LGD] when [map_type] is "districts", to the states endpoint with a
    timeout of 30 seconds for any other [map_type]; the body asks for the
    three formats. *)
Theorem save_all_formats_request
    (data : table) (basename map_type : string) (w : World) :
  let districts := String.eqb map_type "districts" in
  let built := if districts
               then build_districts_request data districts_all_formats
               else build_states_request data states_all_formats in
  issued_by w (save_all_formats rt data basename map_type no_kwargs w).2 =
    match built with
    | Ok body =>
        [mkCall (if districts then districts_endpoint (this w)
                 else states_endpoint (this w))
                body (if districts then 60 else 30)]
    | Raise _ => []
    end /\
  (forall body, built = Ok body ->
     body_formats body = Some (py_strs ["png"; "svg"; "pdf"]) /\
     (districts = true -> py_getitem body "mapType" = Ok (PStr "LGD"))).
Proof.
  cbv zeta. split.
  - assert (posts (save_all_formats rt data basename map_type no_kwargs w).2
            = posts (all_formats_call rt data map_type w).2) as Hposts.
    { rewrite save_all_formats_run.
      destruct (all_formats_call rt data map_type w) as [[out|e] w1]; [|done].
      destruct (output_getitem out "exports") as [exports|e]; [|done].
      destruct (py_iter exports) as [es|e]; [|done].
      by destruct (save_exports_frame rt basename es w1) as [_ ->]. }
    unfold issued_by. rewrite Hposts. unfold all_formats_call.
    destruct (String.eqb map_type "districts").
    + destruct (generate_districts_map_frame rt data districts_all_formats w)
        as [_ ->].
      by rewrite drop_app_length.
    + destruct (generate_map_frame rt data states_all_formats w) as [_ ->].
      by rewrite drop_app_length.
  - intros body. destruct (String.eqb map_type "districts").
    + unfold build_districts_request.
      destruct (normalize_districts data) as [recs|e]; [|done].
      cbv beta iota delta [mbind Result_bind].
      repeat case_bool_decide; cbn [negb]; try done.
      intros [= <-]. split; [reflexivity|]. intros _. reflexivity.
    + unfold build_states_request.
      destruct (normalize_states data) as [recs|e]; [|done].
      cbv beta iota delta [mbind Result_bind].
      repeat case_bool_decide; cbn [negb]; try done.
      intros [= <-]. split; [reflexivity|]. done.
Qed.

(** X14.  [get_metadata] asks the states endpoint for SVG only, yet needs a
    PNG export in the answer: given one that PIL can open and a [metadata]
    field, it returns that field as received, and has changed the world by
    its post alone. *)
Theorem get_metadata_returns_metadata
    (data : table) (recs : list record)
    (d : gmap string pyval) (pre post : list pyval)
    (png payload metadata : pyval) (raw : bytes) (w : World) :
  normalize_states data = Ok recs -> recs <> [] ->
  (forall call, server rt (posts w) call = JsonBody (PDict d)) ->
  d !! "success" = Some (PBool true) ->
  d !! "exports" = Some (PList (pre ++ png :: post)) ->
  Forall other_export pre -> export_of "png" payload png ->
  b64decode payload = Ok raw ->
  PIL_AVAILABLE rt = true -> Image_identify rt raw = true ->
  d !! "metadata" = Some metadata ->
  exists body,
    body_records body = Some recs /\
    body_formats body = Some (py_strs ["svg"]) /\
    get_metadata rt data w
    = (Ok metadata, after_post w (mkCall (states_endpoint (this w)) body 30)).
Proof.
  intros Hn Hne Hserver Hsucc Hexp Hpre Hpng Hb64 Hpil Hident Hmeta.
  set (args := States.mk "BharatViz" "Values" "spectral" false false false
                         ["svg"] false None true (12, 12)%Q).
  destruct (build_states_accepts recs args Hne ltac:(compute_done))
    as (body & Hb & Hrecs).
  rewrite <- (build_states_of_records data recs args Hn) in Hb.
  exists body. split; [exact Hrecs|]. split.
  - revert Hb. unfold build_states_request. rewrite Hn.
    cbv beta iota delta [mbind Result_bind].
    repeat case_bool_decide; cbn [negb]; try done. by intros [= <-].
  - unfold get_metadata. cbv zeta. fold args. rewrite run_bind.
    rewrite (generate_map_answered rt data args w body (PDict d) Hb (Hserver _)).
    subst args.
    cbn [States.title States.show States.save_path States.return_all
         States.figsize].
    rewrite (decode_reaches_image rt _ _ _ _ _ _ d pre post png payload raw)
      by assumption.
    rewrite run_bind.
    rewrite (present_idle rt _ _ None _ _ _ eq_refl).
    rewrite run_lift, (py_getitem_some _ _ _ Hmeta). reflexivity.
Qed.

End Requests.

(** ** The static helpers *)

(** X15.  [from_dict] turns every item of the dict into one record, in the
    order of the items, pairing the key under [state] with the value under
    [value] and nothing else; a non-empty dict with a valid colour scale
    therefore builds into a body of exactly those records. *)
Theorem from_dict_records (data : list (string * pyval)) (a : States.args) :
  length (from_dict data) = length data /\
  Forall (fun r : record => dom r = state_keys) (from_dict data) /\
  (forall i k v, data !! i = Some (k, v) ->
     exists r, from_dict data !! i = Some r /\
               r !! "state" = Some (PStr k) /\ r !! "value" = Some v) /\
  (data <> [] -> States.color_scale a ∈ COLOR_SCALES ->
   exists body,
     build_states_request (Rows (from_dict data)) a = Ok body /\
     body_records body = Some (from_dict data)).
Proof.
  unfold from_dict. split; [by rewrite length_fmap|]. split; [|split].
  - apply Forall_fmap, Forall_forall. intros [k v] _. cbn.
    rewrite !dom_insert_L, dom_empty_L. unfold state_keys. set_solver.
  - intros i k v Hi. rewrite list_lookup_fmap, Hi. cbn.
    eexists. split; [reflexivity|]. split; by simplify_map_eq.
  - intros Hne Hscale. apply build_states_accepts; [|done].
    by destruct data.
Qed.

Lemma label_positions_from_absent (k : nat) (c : label) (cols : list label) :
  c ∉ cols -> label_positions_from k c cols = [].
Proof.
  revert k. induction cols as [|c' cols IH]; intros k Hc; [done|].
  apply not_elem_of_cons in Hc as [Hne Hc]. cbn.
  rewrite bool_decide_false by congruence. by apply IH.
Qed.

Lemma label_positions_from_unique (k i : nat) (c : label) (cols : list label) :
  NoDup cols -> cols !! i = Some c ->
  label_positions_from k c cols = [k + i].
Proof.
  revert k i. induction cols as [|c' cols IH]; intros k i Hnd Hi; [done|].
  apply NoDup_cons in Hnd as [Hc Hnd]. cbn [label_positions_from].
  destruct i as [|i]; cbn in Hi.
  - injection Hi as ->. rewrite bool_decide_true by done.
    rewrite (label_positions_from_absent _ _ _ Hc). f_equal. lia.
  - rewrite bool_decide_false.
    + rewrite (IH (S k) i Hnd Hi). f_equal. lia.
    + intros ->. apply Hc. by eapply list_elem_of_lookup_2.
Qed.

(** X16.  On a frame with distinct labels and at least two columns,
    [from_dataframe] without column names reads the first column as [state]
    and the second as [value], whatever the labels are. *)
Theorem from_dataframe_positional (df : DataFrame label) :
  NoDup (columns df) -> 2 <= length (columns df) ->
  from_dataframe df None None = inr (records_as ["state"; "value"] df).
Proof.
  destruct df as [cols rs]. cbn [columns]. intros Hnd Hlen.
  destruct cols as [|c0 [|c1 rest]]; cbn in Hlen; [lia | lia |].
  unfold from_dataframe, getitem_labels. cbn [columns rows lookup list_lookup].
  cbn [get_label_indexer].
  rewrite (label_positions_from_unique 0 0 c0 _ Hnd eq_refl),
    (label_positions_from_unique 0 1 c1 _ Hnd eq_refl).
  cbn. rewrite bool_decide_false, bool_decide_true by first
    [done | intros ->; apply NoDup_cons in Hnd as [Hc _]; apply Hc;
            apply list_elem_of_here].
  unfold records_as, to_dict_records. cbn [columns rows]. f_equal.
  rewrite <- list_fmap_compose. apply list_fmap_ext.
  intros i row _. apply dict_zip_take2.
Qed.

(** X17.  On a frame with distinct labels, [from_dataframe] with two
    different column names takes, row by row, the cell under the first name
    as [state] and the cell under the second as [value], wherever the two
    columns stand. *)
Theorem from_dataframe_by_name
    (df : DataFrame label) (state_col value_col : label) (i j : nat) :
  NoDup (columns df) ->
  columns df !! i = Some state_col -> columns df !! j = Some value_col ->
  state_col <> value_col ->
  exists recs,
    from_dataframe df (Some state_col) (Some value_col) = inr recs /\
    length recs = length (rows df) /\
    forall k row s v,
      rows df !! k = Some row -> row !! i = Some s -> row !! j = Some v ->
      recs !! k = Some (list_to_map [("state", s); ("value", v)]).
Proof.
  destruct df as [cols rs]. cbn [columns rows]. intros Hnd Hi Hj Hne.
  unfold from_dataframe, getitem_labels. cbn [columns rows get_label_indexer].
  rewrite (label_positions_from_unique 0 i _ _ Hnd Hi),
    (label_positions_from_unique 0 j _ _ Hnd Hj).
  cbn. rewrite (bool_decide_false _ Hne), bool_decide_true by done.
  eexists. split; [reflexivity|]. split.
  - unfold to_dict_records. cbn [columns rows]. by rewrite !length_fmap.
  - intros k row s v Hrow Hs Hv. unfold to_dict_records. cbn [columns rows].
    rewrite !list_lookup_fmap, Hrow. cbn. unfold take_cells. cbn.
    rewrite Hs, Hv. cbn. apply (f_equal Some), map_eq. intros key.
    repeat (rewrite lookup_insert; case_decide; subst; try done).
Qed.

(** X18.  The helpers fail with builtin errors, not with [BharatVizError]:
    [from_dataframe] without names on a frame with fewer than two columns
    is an [IndexError], and with a name that labels no column a
    [KeyError]. *)
Theorem from_dataframe_errors (df : DataFrame label) (state_col value_col : label) :
  (length (columns df) < 2 ->
   from_dataframe df None None = inl Helper.IndexError) /\
  (state_col ∉ columns df \/ value_col ∉ columns df ->
   from_dataframe df (Some state_col) (Some value_col) = inl Helper.KeyError).
Proof.
  destruct df as [cols rs]. cbn [columns]. split.
  - intros Hlen. destruct cols as [|c0 [|c1 rest]]; cbn in Hlen; try lia; done.
  - intros Hmiss. unfold from_dataframe, getitem_labels.
    cbn [columns rows get_label_indexer].
    destruct Hmiss as [Hs | Hv].
    + by rewrite (label_positions_from_absent 0 _ _ Hs).
    + rewrite (label_positions_from_absent 0 value_col _ Hv).
      by destruct (label_positions_from 0 state_col cols).
Qed.

(** X19.  On a frame with distinct labels and at least three columns,
    [from_dataframe_districts] without column names reads the first three
    columns as [state], [district] and [value]. *)
Theorem from_dataframe_districts_positional (df : DataFrame label) :
  NoDup (columns df) -> 3 <= length (columns df) ->
  from_dataframe_districts df None None None
  = inr (records_as ["state"; "district"; "value"] df).
Proof.
  destruct df as [cols rs]. cbn [columns]. intros Hnd Hlen.
  destruct cols as [|c0 [|c1 [|c2 rest]]]; cbn in Hlen; [lia | lia | lia |].
  unfold from_dataframe_districts, getitem_labels.
  cbn [columns rows lookup list_lookup get_label_indexer].
  rewrite (label_positions_from_unique 0 0 c0 _ Hnd eq_refl),
    (label_positions_from_unique 0 1 c1 _ Hnd eq_refl),
    (label_positions_from_unique 0 2 c2 _ Hnd eq_refl).
  assert (c0 <> c1 /\ c0 <> c2 /\ c1 <> c2) as (H01 & H02 & H12).
  { apply NoDup_cons in Hnd as [Hc0 Hnd]. apply NoDup_cons in Hnd as [Hc1 _].
    repeat split; intros ->; first [apply Hc0 | apply Hc1]; set_solver. }
  cbn. rewrite (bool_decide_false (c0 = c2)), (bool_decide_false (c0 = c1)),
    (bool_decide_false (c1 = c2)), !bool_decide_true by done.
  unfold records_as, to_dict_records. cbn [columns rows]. f_equal.
  rewrite <- list_fmap_compose. apply list_fmap_ext.
  intros i row _. apply dict_zip_take3.
Qed.

(** ** The module-level shortcuts *)

Section Quick.
Context (rt : Runtime).

Lemma decode_needs_matplotlib saved_line title save_path return_all figsize
    result (w : World) (out : MapOutput) :
  MPL_AVAILABLE rt = false ->
  (decode rt saved_line title true save_path return_all figsize result w).1
  <> Ok out.
Proof.
  intros Hmpl. unfold decode, present, Image_save, write_file, print.
  rewrite Hmpl.
  unfold mbind, M_bind, mret, M_ret, lift, raise.
  repeat case_match; simplify_eq/=; auto.
Qed.

Lemma with_new_client_run {A} (api_url : string) (call : M A) (w : World) :
  let w0 := mkWorld (mkClient (rstrip "/" api_url)
                       (rstrip "/" api_url +:+ "/api/v1/states/map")
                       (rstrip "/" api_url +:+ "/api/v1/districts/map"))
                    (posts w) (files w) (stdout w) (shown w) in
  with_new_client api_url call w =
  ((call w0).1,
   mkWorld (this w) (posts (call w0).2) (files (call w0).2)
           (stdout (call w0).2) (shown (call w0).2)).
Proof.
  cbv zeta. unfold with_new_client. rewrite run_bind.
  unfold __init__, set_this. by destruct (call _).
Qed.

(** X20.  [quick_map] and [quick_districts_map] work on a client of their
    own: the caller's client is untouched, the one post they may send goes
    to the endpoint built from their [api_url] argument without its trailing
    slashes, and since they always ask for display they never return a map
    when matplotlib is missing. *)
Theorem quick_calls_use_their_own_client
    (data : table) (title legend_title color_scale map_type : string)
    (save_path : option string) (api_url : string) (w : World) :
  let args := States.mk title legend_title color_scale false false false
                        ["png"] true save_path false (12, 12)%Q in
  let dargs := Districts.mk map_type title legend_title color_scale false
                            false true ["png"] true save_path false
                            (12, 12)%Q in
  let run := quick_map rt data title legend_title color_scale save_path
                       api_url w in
  let drun := quick_districts_map rt data title legend_title color_scale
                                  map_type save_path api_url w in
  this run.2 = this w /\
  this drun.2 = this w /\
  issued_by w run.2 =
    match build_states_request data args with
    | Ok body => [mkCall (rstrip "/" api_url +:+ "/api/v1/states/map") body 30]
    | Raise _ => []
    end /\
  issued_by w drun.2 =
    match build_districts_request data dargs with
    | Ok body =>
        [mkCall (rstrip "/" api_url +:+ "/api/v1/districts/map") body 60]
    | Raise _ => []
    end /\
  (MPL_AVAILABLE rt = false ->
   forall out, run.1 <> Ok out /\ drun.1 <> Ok out).
Proof.
  cbv zeta. unfold quick_map, quick_districts_map.
  rewrite !with_new_client_run. cbv zeta. cbn [fst snd this posts].
  split; [done|]. split; [done|]. unfold issued_by. split; [|split].
  - match goal with
    | |- context [generate_map rt data ?a ?w0] =>
        destruct (generate_map_frame rt data a w0) as [_ ->]
    end.
    cbn [posts this states_endpoint]. by rewrite drop_app_length.
  - match goal with
    | |- context [generate_districts_map rt data ?a ?w0] =>
        destruct (generate_districts_map_frame rt data a w0) as [_ ->]
    end.
    cbn [posts this districts_endpoint]. by rewrite drop_app_length.
  - intros Hmpl out. split.
    + rewrite generate_map_run.
      destruct (build_states_request data _); [|done].
      cbv zeta. destruct (server rt _ _); [done..|].
      by apply decode_needs_matplotlib.
    + rewrite generate_districts_map_run.
      destruct (build_districts_request data _); [|done].
      cbv zeta. destruct (server rt _ _); [done..|].
      by apply decode_needs_matplotlib.
Qed.

End Quick.

(** ** Worked examples of the further properties *)

Lemma transport_failure_is_reported_witness :
  let w := fresh_world in
  let call := mkCall (states_endpoint (this w)) goa_request 30 in
  build_states_request (Rows [goa]) States.defaults = Ok goa_request /\
  build_districts_request (Rows [panaji]) Districts.defaults
  = Ok panaji_request /\
  generate_map (answering (RequestException "timed out")) (Rows [goa])
    States.defaults w
  = (Raise (BharatVizError ("API request failed: " +:+ "timed out")),
     after_post w call) /\
  generate_map (answering InvalidJson) (Rows [goa]) States.defaults w
  = (Raise (BharatVizError "Invalid JSON response from API"),
     after_post w call).
Proof.
  intros w call.
  assert (build_states_request (Rows [goa]) States.defaults = Ok goa_request)
    as Hb by reflexivity.
  assert (build_districts_request (Rows [panaji]) Districts.defaults
          = Ok panaji_request) as Hdb by reflexivity.
  refine (conj Hb (conj Hdb (conj _ _))).
  - exact (proj1 (transport_failure_is_reported
             (answering (RequestException "timed out")) (Rows [goa])
             States.defaults goa_request (Rows [panaji]) Districts.defaults
             panaji_request w Hb Hdb) "timed out" eq_refl).
  - exact (proj1 (proj2 (transport_failure_is_reported
             (answering InvalidJson) (Rows [goa])
             States.defaults goa_request (Rows [panaji]) Districts.defaults
             panaji_request w Hb Hdb)) eq_refl).
Defined.

Lemma pil_missing_is_reported_witness :
  png_only_response !! "success" = Some (PBool true) /\
  png_only_response !! "exports" = Some (PList ([] ++ png_entry :: [])) /\
  export_of "png" (PStr "aGk=") png_entry /\
  PIL_AVAILABLE (without_pil InvalidJson) = false /\
  decode (without_pil InvalidJson) "✅ Map saved to: " "BharatViz" false None
    false (12, 12)%Q (PDict png_only_response) fresh_world
  = (Raise (BharatVizError
       "PIL is required to handle images. Install with: pip install pillow"),
     fresh_world).
Proof.
  assert (export_of "png" (PStr "aGk=") png_entry) as Hpng.
  { eexists. split; [reflexivity|]. split; reflexivity. }
  refine (conj eq_refl (conj eq_refl (conj Hpng (conj eq_refl _)))).
  exact (pil_missing_is_reported (without_pil InvalidJson) "✅ Map saved to: "
           "BharatViz" false None false (12, 12)%Q png_only_response [] []
           png_entry (PStr "aGk=") fresh_world eq_refl eq_refl
           (List.Forall_nil _) Hpng eq_refl).
Defined.

Lemma saved_before_display_witness :
  let rt := without_matplotlib InvalidJson in
  let raw := String.list_byte_of_string "hi" in
  "map.png" <> "" /\
  export_of "png" (PStr "aGk=") png_entry /\
  b64decode (PStr "aGk=") = Ok raw /\
  MPL_AVAILABLE rt = false /\
  decode rt "✅ Map saved to: " "BharatViz" true (Some "map.png") false
    (12, 12)%Q (PDict three_exports_response) fresh_world
  = (Raise (BharatVizError
       ("matplotlib is required to display images. "
        +:+ "Install with: pip install matplotlib")),
     mkWorld (this fresh_world) (posts fresh_world)
       (<["map.png" := raw]> (files fresh_world))
       (stdout fresh_world ++ ["✅ Map saved to: " +:+ "map.png"])
       (shown fresh_world)).
Proof.
  intros rt raw.
  assert ("map.png" <> "") as Hp by discriminate.
  assert (export_of "png" (PStr "aGk=") png_entry) as Hpng.
  { eexists. split; [reflexivity|]. split; reflexivity. }
  assert (b64decode (PStr "aGk=") = Ok raw) as Hb64 by reflexivity.
  refine (conj Hp (conj Hpng (conj Hb64 (conj eq_refl _)))).
  exact (saved_before_display rt "✅ Map saved to: " "BharatViz"
           "map.png" false (12, 12)%Q three_exports_response []
           [svg_entry; pdf_entry] png_entry (PStr "aGk=") raw raw
           fresh_world eq_refl eq_refl (List.Forall_nil _) Hpng Hb64
           eq_refl eq_refl Hp eq_refl eq_refl eq_refl eq_refl).
Defined.

Lemma nothing_saved_or_shown_unasked_witness :
  let rt := answering (JsonBody (PDict three_exports_response)) in
  path_given (States.save_path States.defaults) = None /\
  States.show States.defaults = false /\
  (generate_map rt (Rows [goa]) States.defaults fresh_world).2
  = after_post fresh_world
      (mkCall (states_endpoint (this fresh_world)) goa_request 30) /\
  (generate_districts_map rt (Rows []) Districts.defaults fresh_world).2
  = fresh_world.
Proof.
  intros rt.
  refine (conj eq_refl (conj eq_refl _)).
  exact (nothing_saved_or_shown_unasked rt (Rows [goa]) States.defaults
           (Rows []) Districts.defaults fresh_world
           eq_refl eq_refl eq_refl eq_refl).
Defined.

Lemma unknown_error_by_default_witness :
  (forall s, silent_failure_response !! "success" = Some s ->
             py_truthy s = false) /\
  silent_failure_response !! "error" = None /\
  decode (answering InvalidJson) "✅ Map saved to: " "BharatViz" false None
    false (12, 12)%Q (PDict silent_failure_response) fresh_world
  = (Raise (BharatVizError "API error: Unknown error"), fresh_world).
Proof.
  assert (forall s, silent_failure_response !! "success" = Some s ->
                    py_truthy s = false) as Hfalsy.
  { intros s Hs. assert (Some s = Some (PBool false)) as Heq
      by (rewrite <- Hs; reflexivity).
    injection Heq as ->. reflexivity. }
  refine (conj Hfalsy (conj eq_refl _)).
  exact (unknown_error_by_default (answering InvalidJson) "✅ Map saved to: "
           "BharatViz" false None false (12, 12)%Q silent_failure_response
           fresh_world Hfalsy (or_introl eq_refl)).
Defined.

Lemma missing_metadata_raises_KeyError_witness :
  let rt := answering InvalidJson in
  let raw := String.list_byte_of_string "hi" in
  png_only_response !! "metadata" = None /\
  export_of "png" (PStr "aGk=") png_entry /\
  decode rt "✅ Map saved to: " "BharatViz" false None true (12, 12)%Q
    (PDict png_only_response) fresh_world
  = (Raise (KeyError "metadata"), fresh_world) /\
  decode rt "✅ Map saved to: " "BharatViz" false None false (12, 12)%Q
    (PDict png_only_response) fresh_world
  = (Ok (ImageOnly (mkImage raw)), fresh_world).
Proof.
  intros rt raw.
  assert (export_of "png" (PStr "aGk=") png_entry) as Hpng.
  { eexists. split; [reflexivity|]. split; reflexivity. }
  refine (conj eq_refl (conj Hpng _)).
  exact (missing_metadata_raises_KeyError rt "✅ Map saved to: " "BharatViz"
           false None (12, 12)%Q png_only_response [] [] png_entry
           (PStr "aGk=") raw fresh_world fresh_world eq_refl eq_refl
           (List.Forall_nil _) Hpng eq_refl eq_refl eq_refl eq_refl eq_refl).
Defined.

Lemma frame_records_carry_required_keys_witness :
  normalize_states (Frame reordered_columns) = Ok [goa] /\
  wf_frame reordered_columns /\
  length [goa] = length (rows reordered_columns) /\
  Forall (fun r : record => dom r ⊆ state_keys) [goa] /\
  Forall (fun r : record => dom r = state_keys) [goa].
Proof.
  assert (normalize_states (Frame reordered_columns) = Ok [goa]) as Hn
    by reflexivity.
  assert (wf_frame reordered_columns) as Hwf
    by (repeat constructor).
  destruct (proj1 (frame_records_carry_required_keys reordered_columns)
              [goa] Hn) as (Hlen & Hsub & Heq).
  exact (conj Hn (conj Hwf (conj Hlen (conj Hsub (Heq Hwf))))).
Defined.

Lemma named_columns_selected_by_name_witness :
  NoDup (columns reordered_columns) /\
  columns reordered_columns !! 2 = Some (LStr "state") /\
  columns reordered_columns !! 0 = Some (LStr "value") /\
  NoDup (columns reordered_district_columns) /\
  (exists recs,
     normalize_states (Frame reordered_columns) = Ok recs /\
     length recs = length (rows reordered_columns) /\
     forall k row s v,
       rows reordered_columns !! k = Some row ->
       row !! 2 = Some s -> row !! 0 = Some v ->
       recs !! k = Some (list_to_map [("state", s); ("value", v)])) /\
  (exists recs,
     normalize_districts (Frame reordered_district_columns) = Ok recs /\
     length recs = length (rows reordered_district_columns) /\
     forall k row s d v,
       rows reordered_district_columns !! k = Some row ->
       row !! 3 = Some s -> row !! 1 = Some d -> row !! 0 = Some v ->
       recs !! k = Some (list_to_map
                           [("state", s); ("district", d); ("value", v)])).
Proof.
  assert (NoDup (columns reordered_columns)) as Hnd
    by (apply (bool_decide_unpack _); vm_compute; exact I).
  assert (NoDup (columns reordered_district_columns)) as Hdnd
    by (apply (bool_decide_unpack _); vm_compute; exact I).
  refine (conj Hnd (conj eq_refl (conj eq_refl (conj Hdnd _)))).
  exact (named_columns_selected_by_name reordered_columns 2 0
           reordered_district_columns 3 1 0
           Hnd eq_refl eq_refl Hdnd eq_refl eq_refl eq_refl).
Defined.

Lemma invalid_choice_is_named_witness :
  (States.color_scale plasma_typo ∉ COLOR_SCALES) /\
  (Districts.map_type census_args ∉ valid_map_types) /\
  (exists msg,
     build_states_request (Rows [goa]) plasma_typo
     = Raise (BharatVizError msg) /\
     contains msg ("'" +:+ "plazma" +:+ "'") /\
     forall s, s ∈ COLOR_SCALES -> contains msg s) /\
  (exists msg,
     build_districts_request (Rows [panaji]) census_args
     = Raise (BharatVizError msg) /\
     contains msg ("'" +:+ "CENSUS" +:+ "'") /\
     forall t, t ∈ valid_map_types -> contains msg t).
Proof.
  assert (States.color_scale plasma_typo ∉ COLOR_SCALES) as Hscale
    by (apply (bool_decide_unpack _); vm_compute; exact I).
  assert (Districts.map_type census_args ∉ valid_map_types) as Htype
    by (apply (bool_decide_unpack _); vm_compute; exact I).
  assert (Districts.color_scale census_args ∈ COLOR_SCALES) as Hdscale
    by (apply (bool_decide_unpack _); vm_compute; exact I).
  refine (conj Hscale (conj Htype _)).
  exact (invalid_choice_is_named (Rows [goa]) [goa] plasma_typo
           (Rows [panaji]) [panaji] census_args eq_refl
           (fun H => match H with end) Hscale eq_refl
           (fun H => match H with end) Hdscale Htype).
Defined.

Lemma save_all_formats_writes_each_witness :
  let rt := answering (JsonBody (PDict three_exports_response)) in
  let saved := [("png", String.list_byte_of_string "hi");
                ("svg", String.list_byte_of_string "<svg/>");
                ("pdf", String.list_byte_of_string "%PDF")] in
  let w1 := (all_formats_call rt (Rows [goa]) "states" fresh_world).2 in
  Forall2 (savable rt "out") [png_entry; svg_entry; pdf_entry] saved /\
  save_all_formats rt (Rows [goa]) "out" "states" no_kwargs fresh_world
  = (Ok tt,
     mkWorld (this fresh_world) (posts w1)
       (written "out" saved (files fresh_world))
       (stdout fresh_world ++ reports "out" saved) (shown fresh_world)).
Proof.
  intros rt saved w1.
  assert (Forall2 (savable rt "out") [png_entry; svg_entry; pdf_entry] saved)
    as Hall.
  { apply List.Forall2_cons; [|apply List.Forall2_cons; [|apply List.Forall2_cons;
      [|apply List.Forall2_nil]]];
      (eexists; split;
       [eexists; split; [reflexivity | split; reflexivity]
       | split; [reflexivity | split; reflexivity]]). }
  refine (conj Hall _).
  exact (save_all_formats_writes_each rt (Rows [goa]) "out" "states"
           (mkImage (String.list_byte_of_string "hi"))
           [png_entry; svg_entry; pdf_entry] stats saved fresh_world w1
           eq_refl Hall).
Defined.


Lemma save_all_formats_aborts_unwritten_witness :
  let rt := answering InvalidJson in
  let w1 := (all_formats_call rt (Rows [goa]) "states" fresh_world).2 in
  all_formats_call rt (Rows [goa]) "states" fresh_world
  = (Raise (BharatVizError "Invalid JSON response from API"), w1) /\
  save_all_formats rt (Rows [goa]) "out" "states" no_kwargs fresh_world
  = (Raise (BharatVizError "Invalid JSON response from API"), w1) /\
  files w1 = files fresh_world /\ stdout w1 = stdout fresh_world.
Proof.
  intros rt w1.
  refine (conj eq_refl _).
  exact (save_all_formats_aborts_unwritten rt (Rows [goa]) "out" "states"
           (BharatVizError "Invalid JSON response from API") fresh_world w1
           eq_refl).
Defined.

Lemma get_metadata_returns_metadata_witness :
  let rt := answering (JsonBody (PDict three_exports_response)) in
  normalize_states (Rows [goa]) = Ok [goa] /\
  export_of "png" (PStr "aGk=") png_entry /\
  three_exports_response !! "metadata" = Some stats /\
  exists body,
    body_records body = Some [goa] /\
    body_formats body = Some (py_strs ["svg"]) /\
    get_metadata rt (Rows [goa]) fresh_world
    = (Ok stats,
       after_post fresh_world
         (mkCall (states_endpoint (this fresh_world)) body 30)).
Proof.
  intros rt.
  assert (export_of "png" (PStr "aGk=") png_entry) as Hpng.
  { eexists. split; [reflexivity|]. split; reflexivity. }
  refine (conj eq_refl (conj Hpng (conj eq_refl _))).
  exact (get_metadata_returns_metadata rt (Rows [goa]) [goa]
           three_exports_response [] [svg_entry; pdf_entry] png_entry
           (PStr "aGk=") stats (String.list_byte_of_string "hi") fresh_world
           eq_refl (fun H => match H with end) (fun _ => eq_refl)
           eq_refl eq_refl (List.Forall_nil _) Hpng eq_refl eq_refl eq_refl
           eq_refl).
Defined.

Lemma from_dict_records_witness :
  let data := [("Maharashtra", PNum (829 # 10)); ("Kerala", PNum (939 # 10))] in
  data <> [] /\
  States.color_scale States.defaults ∈ COLOR_SCALES /\
  length (from_dict data) = 2 /\
  (exists r, from_dict data !! 0 = Some r /\
             r !! "state" = Some (PStr "Maharashtra") /\
             r !! "value" = Some (PNum (829 # 10))) /\
  (exists body,
     build_states_request (Rows (from_dict data)) States.defaults = Ok body /\
     body_records body = Some (from_dict data)).
Proof.
  intros data.
  assert (data <> []) as Hne by discriminate.
  assert (States.color_scale States.defaults ∈ COLOR_SCALES) as Hscale
    by (apply (bool_decide_unpack _); vm_compute; exact I).
  destruct (from_dict_records data States.defaults)
    as (Hlen & _ & Hitem & Hbuild).
  exact (conj Hne (conj Hscale (conj Hlen
           (conj (Hitem 0 "Maharashtra" (PNum (829 # 10)) eq_refl)
                 (Hbuild Hne Hscale))))).
Defined.

Lemma from_dataframe_positional_witness :
  NoDup (columns late_state_column) /\
  2 <= length (columns late_state_column) /\
  from_dataframe late_state_column None None
  = inr (records_as ["state"; "value"] late_state_column) /\
  records_as ["state"; "value"] late_state_column = [goa].
Proof.
  assert (NoDup (columns late_state_column)) as Hnd
    by (apply (bool_decide_unpack _); vm_compute; exact I).
  assert (2 <= length (columns late_state_column)) as Hlen by (cbn; lia).
  exact (conj Hnd (conj Hlen
           (conj (from_dataframe_positional late_state_column Hnd Hlen)
                 eq_refl))).
Defined.

Lemma from_dataframe_by_name_witness :
  NoDup (columns reordered_columns) /\
  LStr "state" <> LStr "value" /\
  exists recs,
    from_dataframe reordered_columns (Some (LStr "state")) (Some (LStr "value"))
    = inr recs /\
    length recs = length (rows reordered_columns) /\
    forall k row s v,
      rows reordered_columns !! k = Some row ->
      row !! 2 = Some s -> row !! 0 = Some v ->
      recs !! k = Some (list_to_map [("state", s); ("value", v)]).
Proof.
  assert (NoDup (columns reordered_columns)) as Hnd
    by (apply (bool_decide_unpack _); vm_compute; exact I).
  assert (LStr "state" <> LStr "value") as Hne by discriminate.
  refine (conj Hnd (conj Hne _)).
  exact (from_dataframe_by_name reordered_columns (LStr "state") (LStr "value")
           2 0 Hnd eq_refl eq_refl Hne).
Defined.

Lemma from_dataframe_errors_witness :
  length (columns one_column) < 2 /\
  (LStr "state" ∉ columns one_column) /\
  from_dataframe one_column None None = inl Helper.IndexError /\
  from_dataframe one_column (Some (LStr "state")) (Some (LStr "region"))
  = inl Helper.KeyError.
Proof.
  assert (length (columns one_column) < 2) as Hlen by (cbn; lia).
  assert (LStr "state" ∉ columns one_column) as Hmiss
    by (apply (bool_decide_unpack _); vm_compute; exact I).
  destruct (from_dataframe_errors one_column (LStr "state") (LStr "region"))
    as [Hindex Hkey].
  exact (conj Hlen (conj Hmiss (conj (Hindex Hlen) (Hkey (or_introl Hmiss))))).
Defined.

Lemma from_dataframe_districts_positional_witness :
  NoDup (columns unnamed_district_columns) /\
  3 <= length (columns unnamed_district_columns) /\
  from_dataframe_districts unnamed_district_columns None None None
  = inr (records_as ["state"; "district"; "value"] unnamed_district_columns) /\
  records_as ["state"; "district"; "value"] unnamed_district_columns
  = [panaji].
Proof.
  assert (NoDup (columns unnamed_district_columns)) as Hnd
    by (apply (bool_decide_unpack _); vm_compute; exact I).
  assert (3 <= length (columns unnamed_district_columns)) as Hlen
    by (cbn; lia).
  exact (conj Hnd (conj Hlen
           (conj (from_dataframe_districts_positional
                    unnamed_district_columns Hnd Hlen) eq_refl))).
Defined.

Lemma quick_calls_use_their_own_client_witness :
  let rt := without_matplotlib (JsonBody (PDict three_exports_response)) in
  let run := quick_map rt (Rows [goa]) "India Map" "Values" "spectral" None
                       "http://localhost:3001/" fresh_world in
  MPL_AVAILABLE rt = false /\
  this run.2 = this fresh_world /\
  (exists body,
     issued_by fresh_world run.2
     = [mkCall "http://localhost:3001/api/v1/states/map" body 30]) /\
  (forall out, run.1 <> Ok out).
Proof.
  intros rt run.
  destruct (quick_calls_use_their_own_client rt (Rows [goa]) "India Map"
              "Values" "spectral" "LGD" None "http://localhost:3001/"
              fresh_world) as (Hthis & _ & Hposts & _ & Hmpl).
  refine (conj eq_refl (conj Hthis (conj _ _))).
  - eexists. exact Hposts.
  - intros out. exact (proj1 (Hmpl eq_refl out)).
Defined.

Lemma save_all_formats_request_witness :
  let rt := answering InvalidJson in
  (exists body,
     build_districts_request (Rows [panaji]) districts_all_formats = Ok body /\
     issued_by fresh_world
       (save_all_formats rt (Rows [panaji]) "out" "districts" no_kwargs
          fresh_world).2
     = [mkCall (districts_endpoint (this fresh_world)) body 60] /\
     body_formats body = Some (py_strs ["png"; "svg"; "pdf"]) /\
     py_getitem body "mapType" = Ok (PStr "LGD")) /\
  (exists body,
     build_states_request (Rows [goa]) states_all_formats = Ok body /\
     issued_by fresh_world
       (save_all_formats rt (Rows [goa]) "out" "state" no_kwargs
          fresh_world).2
     = [mkCall (states_endpoint (this fresh_world)) body 30]).
Proof.
  intros rt.
  destruct (save_all_formats_request rt (Rows [panaji]) "out" "districts"
              fresh_world) as [Hposts Hbody].
  destruct (save_all_formats_request rt (Rows [goa]) "out" "state"
              fresh_world) as [Hsposts _].
  split.
  - eexists. split; [reflexivity|]. split; [exact Hposts|].
    destruct (Hbody _ eq_refl) as [Hf Hm]. exact (conj Hf (Hm eq_refl)).
  - eexists. split; [reflexivity|]. exact Hsposts.
Defined.
